(* ===================================================================== *)
(* video_downloader.py: option translation, progress reporting, format   *)
(* listing and outcome handling, as a shallow embedding.                 *)
(*                                                                       *)
(* The program drives an external extraction engine (yt_dlp.YoutubeDL).  *)
(* The engine, the file system and the console are the world the program *)
(* acts on: the console is the list of the chunks written by print, the  *)
(* file system is a finite map from paths to nodes, and the engine is a  *)
(* record of computations that may print, touch the file system, return  *)
(* or raise.                                                             *)
(* ===================================================================== *)

From Stdlib Require Import ZArith String Ascii List Lia.
From Stdlib Require Import Decimal DecimalString DecimalPos.
From stdpp Require Import gmap strings list fin_maps.

Open Scope Z_scope.

(* --------------------------------------------------------------------- *)
(* Exceptions and results                                                *)
(* --------------------------------------------------------------------- *)

(** The two classes of exception the handlers of [download_video] tell
    apart: [KeyboardInterrupt], and the instances of [Exception], kept
    with the name of their class and the text of [str(e)].  (The classes
    left outside [Exception], SystemExit and GeneratorExit, come from the
    shutdown of the interpreter and from generators, not from the calls
    modelled here.) *)
Inductive exn : Type :=
| KeyboardInterrupt
| Exception (cls : string) (msg : string).

Inductive result (A : Type) : Type :=
| Ok (a : A)
| Raise (e : exn).

Arguments Ok {A} a.
Arguments Raise {A} e.

Definition is_Raise {A} (r : result A) : bool :=
  match r with Ok _ => false | Raise _ => true end.

(* --------------------------------------------------------------------- *)
(* Python values                                                         *)
(* --------------------------------------------------------------------- *)

(** The values the engine stores under the keys the program reads and
    prints: None, booleans, integers and strings. *)
Inductive pyval : Type :=
| PNone
| PBool (b : bool)
| PInt (n : Z)
| PStr (s : string).

(** The values of the options mapping handed to the engine. *)
#[warning="-register-all"]
Inductive optval : Type :=
| OBool (b : bool)
| OInt (n : Z)
| OStr (s : string)
| OFunc (name : string)
| OList (l : list optval)
| ODict (d : list (string * optval)).

(** [str(n)] of an integer. *)
Definition str_int (n : Z) : string := NilEmpty.string_of_int (Z.to_int n).

(** The characters [str(n)] is made of. *)
Definition is_digit_or_minus (c : ascii) : bool :=
  match c with
  | "0" | "1" | "2" | "3" | "4" | "5" | "6" | "7" | "8" | "9" | "-" => true
  | _ => false
  end%char.

(** [str(v)], which is what an f-string field [{v}] inserts. *)
Definition py_str (v : pyval) : string :=
  match v with
  | PNone => "None"
  | PBool true => "True"
  | PBool false => "False"
  | PInt n => str_int n
  | PStr s => s
  end.

(** [v == s] for a string literal [s]: only a string compares equal. *)
Definition eq_str (v : pyval) (s : string) : bool :=
  match v with
  | PStr t => String.eqb t s
  | _ => false
  end.

(** [d.get(k, default)] on a dictionary. *)
Definition dict_get (d : gmap string pyval) (k : string) (dflt : pyval) : pyval :=
  match d !! k with
  | Some v => v
  | None => dflt
  end.

(** [d[k]]: a missing key raises KeyError, whose text is the repr of the
    key. *)
Definition dict_item (d : gmap string pyval) (k : string) : result pyval :=
  match d !! k with
  | Some v => Ok v
  | None => Raise (Exception "KeyError" ("'" +:+ k +:+ "'"))
  end.

(* --------------------------------------------------------------------- *)
(* The world: file system and console                                    *)
(* --------------------------------------------------------------------- *)

Inductive node : Type := Dir | File.

(** A path is the list of its parts (pathlib's [parts]), innermost part
    first, so that the parent is the tail; an absolute path ends with its
    anchor, the part "/" (or "//").  The file system maps the paths that
    exist, as the process names them, to what they are; [w_cwd] is the
    working directory, as [os.getcwd()] gives it, and [w_out] the chunks
    written to the console, oldest first. *)
Record world : Type := World {
  w_fs : gmap (list string) node;
  w_cwd : string;
  w_out : list string
}.

(** Computations of the program: they read and change the world, and
    return or raise. *)
Definition M (A : Type) : Type := world -> world * result A.

#[global] Instance M_ret : MRet M := fun A (a : A) w => (w, Ok a).

#[global] Instance M_bind : MBind M := fun A B (k : A -> M B) (c : M A) w =>
  match c w with
  | (w', Ok a) => k a w'
  | (w', Raise e) => (w', Raise e)
  end.

Definition raise {A} (e : exn) : M A := fun w => (w, Raise e).

Definition lift {A} (r : result A) : M A := fun w => (w, r).

(** [try: c  except KeyboardInterrupt: h1  except Exception as e: h2 e]. *)
Definition try_except {A} (c : M A) (h1 : M A) (h2 : exn -> M A) : M A :=
  fun w =>
    match c w with
    | (w', Ok a) => (w', Ok a)
    | (w', Raise KeyboardInterrupt) => h1 w'
    | (w', Raise (Exception cls msg)) => h2 (Exception cls msg) w'
    end.

Definition newline : string := String (ascii_of_nat 10) "".
Definition cr : string := String (ascii_of_nat 13) "".

(** [print(s, end=e)]: one chunk on the console. *)
Definition print_end (s e : string) : M unit :=
  fun w => (World (w_fs w) (w_cwd w) (w_out w ++ [s +:+ e]), Ok tt).

(** [print(s)]. *)
Definition print (s : string) : M unit := print_end s newline.

(** [str(e)] of a caught exception. *)
Definition str_exn (e : exn) : string :=
  match e with
  | KeyboardInterrupt => ""
  | Exception _ msg => msg
  end.

(* --------------------------------------------------------------------- *)
(* Paths: pathlib.Path and os.path.join on a POSIX system                *)
(* --------------------------------------------------------------------- *)

Definition slash : ascii := "/"%char.

(** The pieces of a string between its slashes. *)
Fixpoint split_slash (s : string) (cur : string) : list string :=
  match s with
  | EmptyString => [cur]
  | String c s' =>
      if Ascii.eqb c slash then cur :: split_slash s' ""
      else split_slash s' (cur +:+ String c "")
  end.

Fixpoint leading_slashes (s : string) : nat :=
  match s with
  | String c s' => if Ascii.eqb c slash then S (leading_slashes s') else O
  | EmptyString => O
  end.

(** The anchor of a POSIX path: none for a relative path, "//" for
    exactly two leading slashes, "/" otherwise. *)
Definition anchor (s : string) : list string :=
  match leading_slashes s with
  | O => []
  | 2%nat => ["//"]
  | _ => ["/"]
  end.

Definition is_anchor (a : string) : bool :=
  String.eqb a "/" || String.eqb a "//".

Definition is_component (c : string) : bool :=
  negb (String.eqb c "") && negb (String.eqb c ".").

(** [Path(s)]: the anchor and the components, empty and "." components
    dropped; innermost part first. *)
Definition Path (s : string) : list string :=
  rev (anchor s ++ List.filter is_component (split_slash s "")).

Definition is_absolute (p : list string) : bool :=
  match rev p with
  | a :: _ => is_anchor a
  | [] => false
  end.

Fixpoint join_slash (l : list string) : string :=
  match l with
  | [] => ""
  | [c] => c
  | c :: l' => c +:+ "/" +:+ join_slash l'
  end.

(** [str(p)]. *)
Definition path_str (p : list string) : string :=
  match rev p with
  | [] => "."
  | a :: l => if is_anchor a then a +:+ join_slash l else join_slash (a :: l)
  end.

(** [p.parent]: the path without its last part; the anchor and the empty
    path are their own parents. *)
Definition parent (p : list string) : list string :=
  match p with
  | [] => []
  | [a] => if is_anchor a then [a] else []
  | _ :: q => q
  end.

(** [p.absolute()], the process running in the directory [cwd]. *)
Definition absolute (cwd : string) (p : list string) : list string :=
  if is_absolute p then p else p ++ Path cwd.

(** [os.path.join(a, b)] (posixpath). *)
Definition ends_with_slash (s : string) : bool :=
  match rev (list_ascii_of_string s) with
  | c :: _ => Ascii.eqb c slash
  | [] => false
  end.

Definition os_path_join (a b : string) : string :=
  match b with
  | String c _ =>
      if Ascii.eqb c slash then b
      else if String.eqb a "" || ends_with_slash a then a +:+ b
      else a +:+ "/" +:+ b
  | EmptyString =>
      if String.eqb a "" || ends_with_slash a then a else a +:+ "/"
  end.

(* --------------------------------------------------------------------- *)
(* Creating directories: os.mkdir and Path.mkdir                         *)
(* --------------------------------------------------------------------- *)

Definition os_error (cls : string) (errno : string) (p : list string) : exn :=
  Exception cls (errno +:+ ": '" +:+ path_str p +:+ "'").

Definition is_dir (p : list string) (w : world) : bool :=
  match w_fs w !! p with
  | Some Dir => true
  | _ => false
  end.

(** [os.mkdir(p)]: the path must not exist and its parent must be a
    directory. *)
Definition os_mkdir (p : list string) : M unit :=
  fun w =>
    match w_fs w !! p with
    | Some _ => (w, Raise (os_error "FileExistsError" "[Errno 17] File exists" p))
    | None =>
        match w_fs w !! parent p with
        | Some Dir => (World (<[p := Dir]> (w_fs w)) (w_cwd w) (w_out w), Ok tt)
        | Some File =>
            (w, Raise (os_error "NotADirectoryError" "[Errno 20] Not a directory" p))
        | None =>
            (w, Raise (os_error "FileNotFoundError"
                         "[Errno 2] No such file or directory" p))
        end
    end.

Definition is_FileNotFoundError (e : exn) : bool :=
  match e with
  | Exception cls _ => String.eqb cls "FileNotFoundError"
  | KeyboardInterrupt => false
  end.

(** [p.mkdir(parents=False, exist_ok=exist_ok)]. *)
Definition mkdir_noparents (p : list string) (exist_ok : bool) : M unit :=
  fun w =>
    match os_mkdir p w with
    | (w', Ok _) => (w', Ok tt)
    | (w', Raise e) =>
        if is_FileNotFoundError e then (w', Raise e)
        else if negb exist_ok || negb (is_dir p w') then (w', Raise e)
        else (w', Ok tt)
    end.

(** [p.mkdir(parents=True, exist_ok=exist_ok)]: when the parent is
    missing, the parent is made first, with its own parents, and the
    directory itself is then made without [parents]. *)
Fixpoint mkdir_parents (p : list string) (exist_ok : bool) : M unit :=
  fun w =>
    match os_mkdir p w with
    | (w', Ok _) => (w', Ok tt)
    | (w', Raise e) =>
        if is_FileNotFoundError e then
          match p with
          | [] => (w', Raise e)
          | a :: q =>
              if bool_decide (parent p = p) then (w', Raise e)
              else (mkdir_parents q true ;; mkdir_noparents p exist_ok) w'
          end
        else if negb exist_ok || negb (is_dir p w') then (w', Raise e)
        else (w', Ok tt)
    end.

(* --------------------------------------------------------------------- *)
(* The extraction engine                                                 *)
(* --------------------------------------------------------------------- *)

(** A format record of the engine: the keys [list_formats] reads.  A key
    is absent ([None]) or present with a value of the type the engine
    gives it; a size is an integer or Python's None. *)
Record format_record : Type := FormatRecord {
  format_id : option string;
  ext : option string;
  resolution : option string;
  vcodec : option string;
  filesize_approx : option (option Z);
  filesize : option (option Z);
  format_note : option string
}.

(** The metadata of a URL: the keys the program reads. *)
#[warning="-register-all"]
Inductive info : Type :=
| Info (title : option pyval)
       (entries : option (list (option info)))
       (formats : option (list format_record)).

Definition info_title (i : info) : option pyval :=
  match i with Info t _ _ => t end.
Definition info_entries (i : info) : option (list (option info)) :=
  match i with Info _ e _ => e end.
Definition info_formats (i : info) : option (list format_record) :=
  match i with Info _ _ f => f end.

(** A [YoutubeDL] object: its two methods the program calls,
    [extract_info] always with [download=False].  Each may print, change
    the file system, return, or raise; [extract_info] returns None when
    the engine was told to ignore errors and met one. *)
Record ydl : Type := Ydl {
  extract_info : string -> M (option info);
  download : list string -> M unit
}.

(* --------------------------------------------------------------------- *)
(* download_video: the options handed to the engine                      *)
(* --------------------------------------------------------------------- *)

Record download_args : Type := DownloadArgs {
  url : string;
  audio_only : bool;
  output_dir : string;
  start : Z;
  quality : string;
  format_code : option string;
  subtitle : bool;
  no_playlist : bool
}.

(** [if format_code]: None and the empty string are false. *)
Definition format_code_given (fc : option string) : bool :=
  match fc with
  | Some s => negb (String.eqb s "")
  | None => false
  end.

(** Lines 45-53: the base options. *)
Definition base_opts (a : download_args) : gmap string optval :=
  <["progress_hooks" := OList [OFunc "progress_hook"]]>
  (<["fragment_retries" := OInt 5]>
  (<["retries" := OInt 5]>
  (<["noplaylist" := OBool (no_playlist a)]>
  (<["playliststart" := OInt (start a)]>
  (<["ignoreerrors" := OBool true]>
  (<["outtmpl" := OStr (os_path_join (output_dir a) "%(title)s.%(ext)s")]> ∅)))))).

Definition height_selector (q : string) : string :=
  "bestvideo[height<=" +:+ q +:+ "]+bestaudio/best[height<=" +:+ q +:+ "]".

(** Lines 56-80: the format selection, and the line it prints. *)
Definition select_format (a : download_args) (opts : gmap string optval)
  : gmap string optval * string :=
  if audio_only a then
    (<["postprocessors" :=
         OList [ODict [("key", OStr "FFmpegExtractAudio");
                       ("preferredcodec", OStr "mp3");
                       ("preferredquality", OStr "192")]]]>
     (<["format" := OStr "bestaudio/best"]> opts),
     "🎵 Mode: Audio only (MP3)")
  else if format_code_given (format_code a) then
    (<["format" := OStr (default "" (format_code a))]> opts,
     "🎬 Mode: Custom format (" +:+ default "" (format_code a) +:+ ")")
  else if String.eqb (quality a) "best" then
    (<["format" := OStr "bestvideo+bestaudio/best"]> opts,
     "🎬 Mode: Best quality")
  else if String.eqb (quality a) "worst" then
    (<["format" := OStr "worst"]> opts, "🎬 Mode: Lowest quality")
  else
    (<["format" := OStr (height_selector (quality a))]> opts,
     "🎬 Mode: Up to " +:+ quality a +:+ "p quality").

(** Lines 83-88: the subtitle options. *)
Definition subtitle_opts (a : download_args) (opts : gmap string optval)
  : gmap string optval :=
  if subtitle a then
    <["subtitleslangs" := OList [OStr "en"]]>
    (<["writeautomaticsub" := OBool true]>
    (<["writesubtitles" := OBool true]> opts))
  else opts.

(** The mapping [ydl_opts] as line 95 passes it to [YoutubeDL]. *)
Definition ydl_opts (a : download_args) : gmap string optval :=
  subtitle_opts a (select_format a (base_opts a)).1.

(* --------------------------------------------------------------------- *)
(* download_video                                                        *)
(* --------------------------------------------------------------------- *)

Definition getcwd : M string := fun w => (w, Ok (w_cwd w)).

Definition title_or_unknown (i : info) : string :=
  py_str (default (PStr "Unknown") (info_title i)).

Section Engine.

(** The constructor of the engine, called on the options. *)
Variable YoutubeDL : gmap string optval -> M ydl.

(** Lines 95-110: the body of the [try] statement.  The [with] statement
    binds the object the constructor returns; what the engine does when
    the block is left is the engine's own business and adds nothing
    here. *)
Definition download_body (a : download_args) : M bool :=
  y ← YoutubeDL (ydl_opts a);
  oi ← extract_info y (url a);
  match oi with
  | None =>
      raise (Exception "TypeError" "argument of type 'NoneType' is not iterable")
  | Some i =>
      match info_entries i with
      | Some es =>
          print ("📋 Playlist detected: " +:+ title_or_unknown i +:+ " ("
                 +:+ str_int (Z.of_nat (length es)) +:+ " videos)");;
          (if 1 <? start a
           then print ("⏩ Starting from video #" +:+ str_int (start a) +:+ newline)
           else mret tt)
      | None =>
          print ("📹 Single video: " +:+ title_or_unknown i +:+ newline)
      end;;
      download y [url a];;
      print (newline +:+ "✅ Download completed successfully!");;
      mret true
  end.

Definition cancelled_message : string :=
  newline +:+ newline +:+ "⚠️  Download cancelled by user".

Definition error_message (e : exn) : string :=
  newline +:+ "❌ Error: " +:+ str_exn e.

(** Lines 40-92: what [download_video] does before the [try]. *)
Definition download_prelude (a : download_args) : M unit :=
  mkdir_parents (Path (output_dir a)) true;;
  print (select_format a (base_opts a)).2;;
  (if subtitle a then print "📝 Subtitles: Enabled" else mret tt);;
  cwd ← getcwd;
  print ("📁 Output: " +:+ path_str (absolute cwd (Path (output_dir a))));;
  print ("🔗 URL: " +:+ url a +:+ newline).

Definition download_video (a : download_args) : M bool :=
  download_prelude a;;
  try_except (download_body a)
    (print cancelled_message;; mret false)
    (fun e => print (error_message e);; mret false).

End Engine.

(* --------------------------------------------------------------------- *)
(* progress_hook                                                         *)
(* --------------------------------------------------------------------- *)

(** [d.get(k, 'N/A')] inside an f-string. *)
Definition field_or_na (d : gmap string pyval) (k : string) : string :=
  py_str (dict_get d k (PStr "N/A")).

Definition downloading_line (d : gmap string pyval) : string :=
  cr +:+ "⬇️  " +:+ field_or_na d "_percent_str" +:+ " at "
     +:+ field_or_na d "_speed_str" +:+ " (ETA: "
     +:+ field_or_na d "_eta_str" +:+ ")   ".

Definition finished_line : string :=
  cr +:+ "✓ Download finished, processing...             ".

(** Lines 119-127.  The subscription [d['status']] is evaluated for each
    of the two tests. *)
Definition progress_hook (d : gmap string pyval) : M unit :=
  s ← lift (dict_item d "status");
  if eq_str s "downloading" then print_end (downloading_line d) ""
  else
    s' ← lift (dict_item d "status");
    if eq_str s' "finished" then print finished_line
    else mret tt.

(* --------------------------------------------------------------------- *)
(* list_formats                                                          *)
(* --------------------------------------------------------------------- *)

(** [format(s, '<w')] for a string: padded with spaces on the right up
    to [w] characters, never cut. *)
Definition ljust (w : nat) (s : string) : string :=
  s +:+ string_of_list_ascii (repeat " "%char (w - String.length s)).

(** The tenths of [a / 2^20], rounded to the nearest, ties to even. *)
Definition tenths_of_MiB (a : Z) : Z :=
  let q := (10 * a) / 2 ^ 20 in
  let r := (10 * a) mod 2 ^ 20 in
  if 2 * r <? 2 ^ 20 then q
  else if 2 ^ 20 <? 2 * r then q + 1
  else if Z.even q then q else q + 1.

(** [f"{n / 1024 / 1024:.1f}"] for an integer [n].  Python divides in
    binary64: for an integer below 2^53 in magnitude both divisions by
    1024 are exact, and the format rounds the exact quotient to one
    decimal, ties to even, keeping the sign. *)
Definition format_MiB_1f (n : Z) : string :=
  let t := tenths_of_MiB (Z.abs n) in
  (if n <? 0 then "-" else "") +:+ str_int (t / 10) +:+ "." +:+ str_int (t mod 10).

(** Line 152: [f.get('filesize_approx', f.get('filesize', 0))]. *)
Definition filesize_read (f : format_record) : option Z :=
  match filesize_approx f with
  | Some v => v
  | None =>
      match filesize f with
      | Some v => v
      | None => Some 0
      end
  end.

(** Line 153: the size column; None and 0 are false. *)
Definition filesize_str (f : format_record) : string :=
  match filesize_read f with
  | Some n => if n =? 0 then "N/A" else format_MiB_1f n +:+ "MB"
  | None => "N/A"
  end.

(** Line 151. *)
Definition resolution_str (f : format_record) : string :=
  match resolution f with
  | Some r => r
  | None =>
      match vcodec f with
      | Some c => if String.eqb c "none" then "audio only" else "N/A"
      | None => "N/A"
      end
  end.

(** ["{:<10} {:<15} {:<10} {:<15} {:<10}".format(a, b, c, d, e)]. *)
Definition format_columns (a b c d e : string) : string :=
  ljust 10 a +:+ " " +:+ ljust 15 b +:+ " " +:+ ljust 10 c +:+ " "
    +:+ ljust 15 d +:+ " " +:+ ljust 10 e.

(** Lines 149-158: the row of one record. *)
Definition format_row (f : format_record) : string :=
  format_columns (default "N/A" (format_id f)) (default "N/A" (ext f))
    (resolution_str f) (filesize_str f) (default "" (format_note f)).

(** Lines 148-158: the loop over the records. *)
Fixpoint print_rows (fs : list format_record) : M unit :=
  match fs with
  | [] => mret tt
  | f :: rest => print (format_row f);; print_rows rest
  end.

Definition list_opts : gmap string optval :=
  <["no_warnings" := OBool false]> (<["quiet" := OBool false]> ∅).

Definition table_header : string :=
  newline +:+ format_columns "FORMAT" "EXTENSION" "RESOLUTION" "FILESIZE" "NOTE".

Definition table_rule : string := string_of_list_ascii (repeat "-"%char 70).

(** [try: c  except Exception as e: h e]; an interrupt goes through. *)
Definition try_exception {A} (c : M A) (h : exn -> M A) : M A :=
  fun w =>
    match c w with
    | (w', Ok a) => (w', Ok a)
    | (w', Raise KeyboardInterrupt) => (w', Raise KeyboardInterrupt)
    | (w', Raise (Exception cls msg)) => h (Exception cls msg) w'
    end.

Section Lister.

Variable YoutubeDL : gmap string optval -> M ydl.

(** Lines 139-163: the body of the [try] statement. *)
Definition list_body (u : string) : M unit :=
  y ← YoutubeDL list_opts;
  oi ← extract_info y u;
  match oi with
  | None =>
      raise (Exception "TypeError" "argument of type 'NoneType' is not iterable")
  | Some i =>
      match info_formats i with
      | Some fs =>
          print table_header;;
          print table_rule;;
          print_rows fs;;
          print (newline +:+ "💡 Use -f FORMAT_ID to download a specific format");;
          print "   Example: python script.py download URL -f 137+140"
      | None => print "❌ No format information available"
      end
  end.

Definition list_formats (u : string) : M unit :=
  print ("📋 Available formats for: " +:+ u +:+ newline);;
  try_exception (list_body u)
    (fun e => print ("❌ Error listing formats: " +:+ str_exn e)).

End Lister.

(* --------------------------------------------------------------------- *)
(* check_dependencies and main                                           *)
(* --------------------------------------------------------------------- *)


(** The namespace that [parser.parse_args()] returns: one attribute per
    argument declared on lines 185-201. *)
Record namespace : Type := Namespace {
  ns_command : string;
  ns_url : string;
  ns_output : string;
  ns_quality : string;
  ns_audio : bool;
  ns_format : option string;
  ns_subtitle : bool;
  ns_start : Z;
  ns_no_playlist : bool
}.

(** The attributes when the command line gives a command and a URL and
    no option: the defaults declared on lines 188-201. *)
Definition parsed_defaults (cmd u : string) : namespace :=
  Namespace cmd u "downloads" "best" false None false 1 false.

(** Lines 212-221: the keyword arguments of the call of download_video. *)
Definition args_of_namespace (ns : namespace) : download_args :=
  DownloadArgs (ns_url ns) (ns_audio ns) (ns_output ns) (ns_start ns)
    (ns_quality ns) (ns_format ns) (ns_subtitle ns) (ns_no_playlist ns).

Section Main.

(** [shutil.which], as the environment of the process answers it. *)
Variable which : string -> option string.

Variable YoutubeDL : gmap string optval -> M ydl.

(** [parser.print_help()]. *)
Variable print_help : M unit.



End Main.

(* --------------------------------------------------------------------- *)
(* progress_hook on a console that can refuse a write                    *)
(* --------------------------------------------------------------------- *)

(** The console as a flushing print meets it: it takes the chunk, or the
    write raises (a pipe whose reader is gone, a closed stream, a
    character the encoding of the stream lacks). *)
Definition console : Type := string -> result unit.

(** [print(s, end=e, flush=True)] on the console [stdout]: the chunk is
    written through at once, and what the write raises is raised. *)
Definition print_flush (stdout : console) (s e : string) : M unit :=
  fun w =>
    match stdout (s +:+ e) with
    | Ok _ => (World (w_fs w) (w_cwd w) (w_out w ++ [s +:+ e]), Ok tt)
    | Raise x => (w, Raise x)
    end.

(** Lines 119-127 on the console [stdout]: both prints flush, and no
    [try] statement is around them.  [progress_hook] above is this
    function on a console that takes every chunk. *)
Definition progress_hook_on (stdout : console) (d : gmap string pyval) : M unit :=
  s ← lift (dict_item d "status");
  if eq_str s "downloading" then print_flush stdout (downloading_line d) ""
  else
    s' ← lift (dict_item d "status");
    if eq_str s' "finished" then print_flush stdout finished_line newline
    else mret tt.

(* --------------------------------------------------------------------- *)
(* list_formats on the records as the engine gives them                  *)
(* --------------------------------------------------------------------- *)

(** Here a format record is the dictionary itself: any key may be absent,
    or present with any value, None included.  A [format_record] above is
    such a dictionary whose texts are strings and whose sizes are
    integers or None. *)

(** Truth value of an object, as [v if c else w] tests it. *)
Definition truthy (v : pyval) : bool :=
  match v with
  | PNone => false
  | PBool b => b
  | PInt n => negb (n =? 0)
  | PStr s => negb (String.eqb s "")
  end.

Definition and_then {A B} (r : result A) (k : A -> result B) : result B :=
  match r with
  | Ok a => k a
  | Raise e => Raise e
  end.

(** [format(v, '<w')], the replacement field [{:<w}]: a string is padded,
    an integer is written in decimal and padded, a boolean goes as the
    integer it is, and None has no such format. *)
Definition format_ljust (w : nat) (v : pyval) : result string :=
  match v with
  | PStr s => Ok (ljust w s)
  | PInt n => Ok (ljust w (str_int n))
  | PBool b => Ok (ljust w (if b then "1" else "0"))
  | PNone =>
      Raise (Exception "TypeError"
               "unsupported format string passed to NoneType.__format__")
  end.

(** [f"{v / 1024 / 1024:.1f}MB"]. *)
Definition size_MB (v : pyval) : result string :=
  match v with
  | PInt n => Ok (format_MiB_1f n +:+ "MB")
  | PBool b => Ok (format_MiB_1f (if b then 1 else 0) +:+ "MB")
  | PStr _ =>
      Raise (Exception "TypeError"
               "unsupported operand type(s) for /: 'str' and 'int'")
  | PNone =>
      Raise (Exception "TypeError"
               "unsupported operand type(s) for /: 'NoneType' and 'int'")
  end.

(** Lines 152-153. *)
Definition filesize_str_raw (f : gmap string pyval) : result string :=
  let filesize := dict_get f "filesize_approx" (dict_get f "filesize" (PInt 0)) in
  if truthy filesize then size_MB filesize else Ok "N/A".

(** Line 151. *)
Definition resolution_raw (f : gmap string pyval) : pyval :=
  dict_get f "resolution"
    (if eq_str (dict_get f "vcodec" PNone) "none" then PStr "audio only"
     else PStr "N/A").

(** Lines 149-158: the row of one record, or the exception that the
    size or the formatting of a field raises; the fields are formatted
    from left to right. *)
Definition format_row_raw (f : gmap string pyval) : result string :=
  and_then (filesize_str_raw f) (fun size =>
  and_then (format_ljust 10 (dict_get f "format_id" (PStr "N/A"))) (fun a =>
  and_then (format_ljust 15 (dict_get f "ext" (PStr "N/A"))) (fun b =>
  and_then (format_ljust 10 (resolution_raw f)) (fun c =>
  and_then (format_ljust 15 (PStr size)) (fun d =>
  and_then (format_ljust 10 (dict_get f "format_note" (PStr ""))) (fun e =>
  Ok (a +:+ " " +:+ b +:+ " " +:+ c +:+ " " +:+ d +:+ " " +:+ e))))))).

(** Lines 148-158: the loop; it ends at the first record that raises. *)
Fixpoint print_rows_raw (fs : list (gmap string pyval)) : M unit :=
  match fs with
  | [] => mret tt
  | f :: rest =>
      row ← lift (format_row_raw f);
      print row;;
      print_rows_raw rest
  end.

(** The metadata as list_formats reads it: the key "formats", absent or
    holding the records. *)
Inductive raw_info : Type :=
| RawInfo (formats : option (list (gmap string pyval))).

Definition raw_formats (i : raw_info) : option (list (gmap string pyval)) :=
  match i with RawInfo fs => fs end.

Record raw_ydl : Type := RawYdl {
  raw_extract_info : string -> M (option raw_info)
}.

Section RawLister.

Variable YoutubeDL : gmap string optval -> M raw_ydl.

(** Lines 139-163. *)
Definition list_body_raw (u : string) : M unit :=
  y ← YoutubeDL list_opts;
  oi ← raw_extract_info y u;
  match oi with
  | None =>
      raise (Exception "TypeError" "argument of type 'NoneType' is not iterable")
  | Some i =>
      match raw_formats i with
      | Some fs =>
          print table_header;;
          print table_rule;;
          print_rows_raw fs;;
          print (newline +:+ "💡 Use -f FORMAT_ID to download a specific format");;
          print "   Example: python script.py download URL -f 137+140"
      | None => print "❌ No format information available"
      end
  end.

(** Lines 129-166. *)
Definition list_formats_raw (u : string) : M unit :=
  print ("📋 Available formats for: " +:+ u +:+ newline);;
  try_exception (list_body_raw u)
    (fun e => print ("❌ Error listing formats: " +:+ str_exn e)).

End RawLister.

(* --------------------------------------------------------------------- *)
(* Notions the properties are stated with                                *)
(* --------------------------------------------------------------------- *)

(** The world with more chunks written to the console. *)
Definition add_out (w : world) (chunks : list string) : world :=
  World (w_fs w) (w_cwd w) (w_out w ++ chunks).

(** The chunks [download_video] writes before its [try] statement. *)
Definition prelude_lines (a : download_args) (w : world) : list string :=
  [(select_format a (base_opts a)).2 +:+ newline]
  ++ (if subtitle a then ["📝 Subtitles: Enabled" +:+ newline] else [])
  ++ ["📁 Output: " +:+ path_str (absolute (w_cwd w) (Path (output_dir a)))
        +:+ newline;
      ("🔗 URL: " +:+ url a +:+ newline) +:+ newline].

(** A size key that gives no size: absent, None, or 0. *)
Definition no_size (v : option (option Z)) : bool :=
  match v with
  | Some (Some n) => n =? 0
  | _ => true
  end.

(** [s] is the size [n] bytes in MB (2^20 bytes) with one decimal,
    followed by "MB": the decimal of the tenths [t] nearest to
    [n / 2^20], with the sign of [n]. *)
Definition one_decimal_MB (n : Z) (s : string) : Prop :=
  exists t : Z,
    (0 <= t) /\
    (2 * Z.abs (10 * Z.abs n - 2 ^ 20 * t) <= 2 ^ 20) /\
    s = ((if n <? 0 then "-" else "") +:+ str_int (t / 10) +:+ "."
           +:+ str_int (t mod 10) +:+ "MB").

(** The keys of the base options. *)
Definition base_keys : gset string :=
  {[ "outtmpl"; "ignoreerrors"; "playliststart"; "noplaylist"; "retries";
     "fragment_retries"; "progress_hooks" ]}.

(** A file system where whatever exists lies in a directory: the parent
    of every path that exists is a directory, the anchors and the working
    directory being their own parents. *)
Definition fs_closed (fs : gmap (list string) node) : Prop :=
  forall p n, fs !! p = Some n -> parent p = p \/ fs !! parent p = Some Dir.

(** [w'] is [w] with, at most, directories added where nothing was: the
    console and the working directory are the same, and every path is as
    it was or is a new directory. *)
Definition only_adds_dirs (w w' : world) : Prop :=
  w_out w' = w_out w /\ w_cwd w' = w_cwd w /\
  forall q, w_fs w' !! q = w_fs w !! q \/
            (w_fs w !! q = None /\ w_fs w' !! q = Some Dir).

(** The chunks the [try] body of download_video writes about the
    metadata [i], before the download starts. *)
Definition summary_lines (a : download_args) (i : info) : list string :=
  match info_entries i with
  | Some es =>
      (("📋 Playlist detected: " +:+ title_or_unknown i +:+ " ("
          +:+ str_int (Z.of_nat (length es)) +:+ " videos)") +:+ newline)
      :: (if 1 <? start a
          then [("⏩ Starting from video #" +:+ str_int (start a) +:+ newline)
                  +:+ newline]
          else [])
  | None => [("📹 Single video: " +:+ title_or_unknown i +:+ newline) +:+ newline]
  end.


(** A string of ASCII characters only: on such a string the characters
    of the model, which are bytes, are the characters Python counts. *)
Fixpoint ascii_only (s : string) : bool :=
  match s with
  | EmptyString => true
  | String c s' => (nat_of_ascii c <? 128)%nat && ascii_only s'
  end.

(** The text a dictionary holds under a key, when it is a string. *)
Definition text_field (f : gmap string pyval) (k : string) : option string :=
  match f !! k with
  | Some (PStr t) => Some t
  | _ => None
  end.

(** The size a dictionary holds under a key: an integer, or None. *)
Definition size_field (f : gmap string pyval) (k : string) : option (option Z) :=
  match f !! k with
  | Some (PInt n) => Some (Some n)
  | Some PNone => Some None
  | _ => None
  end.

(** The dictionary read as a [format_record]. *)
Definition typed_of (f : gmap string pyval) : format_record :=
  FormatRecord (text_field f "format_id") (text_field f "ext")
    (text_field f "resolution") (text_field f "vcodec")
    (size_field f "filesize_approx") (size_field f "filesize")
    (text_field f "format_note").

(** A text key is absent or holds a string of ASCII characters. *)
Definition text_ok (f : gmap string pyval) (k : string) : bool :=
  match f !! k with
  | None => true
  | Some (PStr t) => ascii_only t
  | Some _ => false
  end.

(** A size key is absent, or holds None or an integer below 2^53 in
    magnitude, where the division in binary64 is exact. *)
Definition size_ok (f : gmap string pyval) (k : string) : bool :=
  match f !! k with
  | None | Some PNone => true
  | Some (PInt n) => Z.abs n <? 2 ^ 53
  | Some _ => false
  end.

(** A record the table is made for: the four texts it shows are ASCII
    strings where present, and its two sizes are integers or None. *)
Definition listable (f : gmap string pyval) : bool :=
  text_ok f "format_id" && text_ok f "ext" && text_ok f "resolution"
  && text_ok f "format_note" && size_ok f "filesize_approx"
  && size_ok f "filesize".


(** The chunk list_formats writes first. *)
Definition list_banner (u : string) : string :=
  ("📋 Available formats for: " +:+ u +:+ newline) +:+ newline.

(** The chunks [list_formats] writes for the records [fs]. *)
Definition table_lines (fs : list format_record) : list string :=
  [table_header +:+ newline; table_rule +:+ newline]
  ++ map (fun f => format_row f +:+ newline) fs
  ++ [(newline +:+ "💡 Use -f FORMAT_ID to download a specific format") +:+ newline;
      "   Example: python script.py download URL -f 137+140" +:+ newline].

(* --------------------------------------------------------------------- *)
(* Sample worlds and engines, for the examples                           *)
(* --------------------------------------------------------------------- *)

(** A world whose working directory exists and is empty. *)
Definition sample_world : world :=
  World {[ [] := Dir ]} "/home/user" [].

Definition opt_format (opts : gmap string optval) : string :=
  match opts !! "format" with
  | Some (OStr s) => s
  | _ => ""
  end.

Definition sample_events : list (gmap string pyval) :=
  [ <["_percent_str" := PStr " 50.0%"]> {[ "status" := PStr "downloading" ]};
    {[ "status" := PStr "finished" ]} ].

Fixpoint fire_hooks (evs : list (gmap string pyval)) : M unit :=
  match evs with
  | [] => mret tt
  | d :: rest => progress_hook d;; fire_hooks rest
  end.

(** An engine that names the selector it was built with, knows one video,
    and whose download reports progress through [progress_hook] and then
    ends as [outcome] says. *)
Definition sample_ydl (outcome : result unit) : ydl :=
  Ydl (fun _ => mret (Some (Info (Some (PStr "Clip")) None None)))
      (fun _ => fire_hooks sample_events;; lift outcome).

Definition sample_YoutubeDL (outcome : result unit) (opts : gmap string optval)
  : M ydl :=
  print ("[engine] format " +:+ opt_format opts);;
  mret (sample_ydl outcome).

(** Three format records: a video whose exact size is known, an audio
    track with an approximate size, and a format of unknown size. *)
Definition sample_formats : list format_record :=
  [ FormatRecord (Some "137") (Some "mp4") (Some "1920x1080") (Some "avc1")
      None (Some (Some 123456789)) (Some "1080p");
    FormatRecord (Some "140") (Some "m4a") None (Some "none")
      (Some (Some 3407872)) None (Some "medium");
    FormatRecord (Some "sb0") (Some "mhtml") (Some "48x27") None
      None None None ].




(** The three records of [sample_formats] as dictionaries. *)
Definition raw_sample_formats : list (gmap string pyval) :=
  [ <["format_note" := PStr "1080p"]> (<["filesize" := PInt 123456789]>
      (<["vcodec" := PStr "avc1"]> (<["resolution" := PStr "1920x1080"]>
      (<["ext" := PStr "mp4"]> {[ "format_id" := PStr "137" ]}))));
    <["format_note" := PStr "medium"]> (<["filesize_approx" := PInt 3407872]>
      (<["vcodec" := PStr "none"]>
      (<["ext" := PStr "m4a"]> {[ "format_id" := PStr "140" ]})));
    <["resolution" := PStr "48x27"]>
      (<["ext" := PStr "mhtml"]> {[ "format_id" := PStr "sb0" ]}) ].

(** A record whose resolution is present and None. *)
Definition raw_no_resolution : gmap string pyval :=
  <["resolution" := PNone]> (<["filesize" := PInt 1048576]>
    (<["ext" := PStr "mp4"]> {[ "format_id" := PStr "hls-720" ]})).

(** An engine that answers every query with the records [fs]. *)
Definition raw_listing_YoutubeDL (fs : list (gmap string pyval))
    (opts : gmap string optval) : M raw_ydl :=
  mret (RawYdl (fun _ => mret (Some (RawInfo (Some fs))))).

Definition sample_args (q : string) (fc : option string) : download_args :=
  DownloadArgs "https://example.com/video" false "downloads" 1 q fc false false.

(* ===================================================================== *)
(* Properties                                                            *)
(* ===================================================================== *)

(* --------------------------------------------------------------------- *)
(* Strings of integers                                                   *)
(* --------------------------------------------------------------------- *)

Lemma string_of_uint_head (d : uint) :
  d <> Nil ->
  exists c s, NilEmpty.string_of_uint d = String c s /\ is_digit_or_minus c = true.
Proof.
  destruct d; intros Hd; try congruence; simpl; eauto.
Qed.

Lemma str_int_head (n : Z) :
  exists c s, str_int n = String c s /\ is_digit_or_minus c = true.
Proof.
  unfold str_int. destruct n as [|p|p]; simpl.
  - by exists "0"%char, "".
  - apply string_of_uint_head, DecimalPos.Unsigned.to_uint_nonnil.
  - by exists "-"%char, (NilEmpty.string_of_uint (Pos.to_uint p)).
Qed.

Lemma str_int_not_word (n : Z) (c : ascii) (s : string) :
  is_digit_or_minus c = false -> String.eqb (str_int n) (String c s) = false.
Proof.
  intros Hc. destruct (str_int_head n) as (c' & s' & -> & Hc').
  apply String.eqb_neq. intros [= -> _]. congruence.
Qed.

(* --------------------------------------------------------------------- *)
(* The options handed to the engine                                      *)
(* --------------------------------------------------------------------- *)

Lemma subtitle_opts_format a opts :
  subtitle_opts a opts !! "format" = opts !! "format".
Proof.
  unfold subtitle_opts. destruct (subtitle a); [|done].
  by rewrite !lookup_insert_ne.
Qed.

Lemma subtitle_opts_postprocessors a opts :
  subtitle_opts a opts !! "postprocessors" = opts !! "postprocessors".
Proof.
  unfold subtitle_opts. destruct (subtitle a); [|done].
  by rewrite !lookup_insert_ne.
Qed.

Lemma base_opts_no_postprocessors a : base_opts a !! "postprocessors" = None.
Proof. unfold base_opts. by rewrite !lookup_insert_ne. Qed.

(** C1. Whenever audio_only is true, whatever the quality and the format
    code, the options handed to the engine select "bestaudio/best" and
    carry exactly one post-processing step, the audio extraction with
    codec mp3 and quality "192". *)
Theorem audio_only_config (u o q : string) (st : Z) (fc : option string)
    (sub npl : bool) :
  let a := DownloadArgs u true o st q fc sub npl in
  ydl_opts a !! "format" = Some (OStr "bestaudio/best") /\
  ydl_opts a !! "postprocessors" =
    Some (OList [ODict [("key", OStr "FFmpegExtractAudio");
                        ("preferredcodec", OStr "mp3");
                        ("preferredquality", OStr "192")]]).
Proof.
  intros a. unfold ydl_opts.
  rewrite subtitle_opts_format, subtitle_opts_postprocessors.
  unfold select_format; simpl. split.
  - rewrite lookup_insert_ne by done. apply lookup_insert_eq.
  - apply lookup_insert_eq.
Qed.

(** Outside the audio branch no post-processing step is attached. *)
Lemma video_config_no_postprocessors a :
  audio_only a = false -> ydl_opts a !! "postprocessors" = None.
Proof.
  intros Ha. unfold ydl_opts. rewrite subtitle_opts_postprocessors.
  unfold select_format. rewrite Ha.
  repeat case_match; simpl; rewrite lookup_insert_ne by done;
    apply base_opts_no_postprocessors.
Qed.

(** C3, as stated, fails: an empty format code is set, and is not what
    the engine receives. *)
Lemma format_code_empty_not_verbatim :
  let a := sample_args "best" (Some "") in
  audio_only a = false /\ format_code a = Some "" /\
  ydl_opts a !! "format" = Some (OStr "bestvideo+bestaudio/best") /\
  ydl_opts a !! "format" <> Some (OStr "").
Proof.
  assert (H : ydl_opts (sample_args "best" (Some "")) !! "format"
              = Some (OStr "bestvideo+bestaudio/best")) by (vm_compute; reflexivity).
  cbv zeta. rewrite H. repeat split; congruence.
Qed.

(** C3, amended. With audio_only false and a non-empty format code, the
    selector handed to the engine is the format code, verbatim, whatever
    the quality. *)
Theorem format_code_verbatim (u o q fc : string) (st : Z) (sub npl : bool) :
  fc <> "" ->
  ydl_opts (DownloadArgs u false o st q (Some fc) sub npl) !! "format"
    = Some (OStr fc).
Proof.
  intros Hfc. unfold ydl_opts. rewrite subtitle_opts_format.
  unfold select_format; simpl.
  apply String.eqb_neq in Hfc. rewrite Hfc; simpl.
  apply lookup_insert_eq.
Qed.

Lemma format_code_verbatim_witness :
  ydl_opts (DownloadArgs "https://example.com/video" false "downloads" 1
              "720" (Some "137+140") true false) !! "format"
    = Some (OStr "137+140").
Proof. apply format_code_verbatim. discriminate. Defined.

(** The selector chosen from the quality when no format code is given. *)
Lemma quality_config (u o q : string) (st : Z) (sub npl : bool) :
  ydl_opts (DownloadArgs u false o st q None sub npl) !! "format" =
    Some (OStr (if String.eqb q "best" then "bestvideo+bestaudio/best"
                else if String.eqb q "worst" then "worst"
                else height_selector q)).
Proof.
  unfold ydl_opts. rewrite subtitle_opts_format.
  unfold select_format; simpl.
  repeat case_match; simpl; apply lookup_insert_eq.
Qed.

(** C4. With audio_only false and no format code: quality "best" selects
    "bestvideo+bestaudio/best", quality "worst" selects "worst", and the
    decimal string of any height n selects
    "bestvideo[height<=n]+bestaudio/best[height<=n]". *)
Theorem quality_selectors (u o : string) (st : Z) (sub npl : bool) :
  ydl_opts (DownloadArgs u false o st "best" None sub npl) !! "format"
    = Some (OStr "bestvideo+bestaudio/best") /\
  ydl_opts (DownloadArgs u false o st "worst" None sub npl) !! "format"
    = Some (OStr "worst") /\
  forall n : Z,
    ydl_opts (DownloadArgs u false o st (str_int n) None sub npl) !! "format"
      = Some (OStr ("bestvideo[height<=" +:+ str_int n
                    +:+ "]+bestaudio/best[height<=" +:+ str_int n +:+ "]")).
Proof.
  repeat split; intros; rewrite quality_config; try reflexivity.
  by rewrite !str_int_not_word.
Qed.

Example quality_720 :
  ydl_opts (sample_args "720" None) !! "format"
    = Some (OStr "bestvideo[height<=720]+bestaudio/best[height<=720]").
Proof. vm_compute. reflexivity. Qed.

Example str_int_720 : str_int 720 = "720".
Proof. reflexivity. Qed.

(* --------------------------------------------------------------------- *)
(* Computations                                                          *)
(* --------------------------------------------------------------------- *)

Lemma bind_Ok {A B} (c : M A) (k : A -> M B) w w' a :
  c w = (w', Ok a) -> (c ≫= k) w = k a w'.
Proof. intros H. unfold mbind, M_bind. by rewrite H. Qed.

Lemma bind_Raise {A B} (c : M A) (k : A -> M B) w w' e :
  c w = (w', Raise e) -> (c ≫= k) w = (w', Raise e).
Proof. intros H. unfold mbind, M_bind. by rewrite H. Qed.

Lemma print_spec s w : print s w = (add_out w [s +:+ newline], Ok tt).
Proof. reflexivity. Qed.

Lemma print_end_spec s e w : print_end s e w = (add_out w [s +:+ e], Ok tt).
Proof. reflexivity. Qed.

Lemma add_out_add_out w l1 l2 : add_out (add_out w l1) l2 = add_out w (l1 ++ l2).
Proof. unfold add_out; simpl. by rewrite <- app_assoc. Qed.

Lemma add_out_nil w : add_out w [] = w.
Proof. destruct w. unfold add_out; simpl. by rewrite app_nil_r. Qed.

(* --------------------------------------------------------------------- *)
(* download_video: exceptions and the value returned                     *)
(* --------------------------------------------------------------------- *)

Section EngineFacts.

Variable YoutubeDL : gmap string optval -> M ydl.

(** Before the [try], only the creation of the directory can raise. *)
Lemma download_prelude_spec a w :
  download_prelude a w =
    match mkdir_parents (Path (output_dir a)) true w with
    | (w1, Ok _) => (add_out w1 (prelude_lines a w1), Ok tt)
    | (w1, Raise e) => (w1, Raise e)
    end.
Proof.
  unfold download_prelude, prelude_lines.
  destruct (mkdir_parents _ _ w) as [w1 [[]|e]] eqn:Hm.
  - erewrite bind_Ok by exact Hm.
    erewrite bind_Ok by apply print_spec.
    destruct (subtitle a).
    + erewrite bind_Ok by apply print_spec.
      unfold getcwd. erewrite bind_Ok by reflexivity.
      erewrite bind_Ok by apply print_spec.
      rewrite print_spec, !add_out_add_out. reflexivity.
    + erewrite bind_Ok by reflexivity.
      unfold getcwd. erewrite bind_Ok by reflexivity.
      erewrite bind_Ok by apply print_spec.
      rewrite print_spec, !add_out_add_out. reflexivity.
  - by erewrite bind_Raise by exact Hm.
Qed.

(** What [download_video] returns, by the outcome of the [try] body. *)
Lemma download_video_spec a w w1 :
  download_prelude a w = (w1, Ok tt) ->
  download_video YoutubeDL a w =
    match download_body YoutubeDL a w1 with
    | (w2, Ok b) => (w2, Ok b)
    | (w2, Raise KeyboardInterrupt) =>
        (add_out w2 [cancelled_message +:+ newline], Ok false)
    | (w2, Raise (Exception cls msg)) =>
        (add_out w2 [error_message (Exception cls msg) +:+ newline], Ok false)
    end.
Proof.
  intros Hp. unfold download_video.
  erewrite bind_Ok by exact Hp. unfold try_except.
  destruct (download_body YoutubeDL a w1) as [w2 [b|[|cls msg]]]; reflexivity.
Qed.

Lemma download_video_prelude_raises a w w1 e :
  download_prelude a w = (w1, Raise e) ->
  download_video YoutubeDL a w = (w1, Raise e).
Proof. intros Hp. unfold download_video. by erewrite bind_Raise. Qed.

(** The body of the [try] returns nothing but True. *)
Lemma download_body_true a w w' b :
  download_body YoutubeDL a w = (w', Ok b) -> b = true.
Proof.
  unfold download_body, mbind, M_bind, mret, M_ret, raise.
  destruct (YoutubeDL _ w) as [w1 [y|?]]; [|done].
  destruct (extract_info y _ w1) as [w2 [[i|]|?]]; [|done|done].
  destruct (info_entries i) as [es|].
  - rewrite print_spec. destruct (1 <? start a).
    + rewrite print_spec.
      destruct (download y _ _) as [w3 [[]|?]]; [|done].
      rewrite print_spec. by intros [= _ <-].
    + destruct (download y _ _) as [w3 [[]|?]]; [|done].
      rewrite print_spec. by intros [= _ <-].
  - rewrite print_spec.
    destruct (download y _ _) as [w3 [[]|?]]; [|done].
    rewrite print_spec. by intros [= _ <-].
Qed.

(** An exception of the engine's download is the one the body raises. *)
Lemma download_body_download_raises a w w1 w2 y i e :
  YoutubeDL (ydl_opts a) w = (w1, Ok y) ->
  extract_info y (url a) w1 = (w2, Ok (Some i)) ->
  (forall w', exists w'', download y [url a] w' = (w'', Raise e)) ->
  exists w3, download_body YoutubeDL a w = (w3, Raise e).
Proof.
  intros Hy Hi Hd. unfold download_body.
  erewrite bind_Ok by exact Hy. erewrite bind_Ok by exact Hi.
  unfold mbind, M_bind, mret, M_ret.
  assert (Hr : forall w' (k : unit -> M bool),
             exists w3, match download y [url a] w' with
                        | (w'', Ok x) => k x w''
                        | (w'', Raise e') => (w'', Raise e')
                        end = (w3, Raise e)).
  { intros w' k. destruct (Hd w') as [w3 ->]. eauto. }
  destruct (info_entries i) as [es|].
  - rewrite print_spec. destruct (1 <? start a).
    + rewrite print_spec. apply Hr.
    + apply Hr.
  - rewrite print_spec. apply Hr.
Qed.

End EngineFacts.

Lemma cancelled_not_error e : cancelled_message <> error_message e.
Proof. unfold cancelled_message, error_message. intros H. inversion H. Qed.

(** C6. When the [try] body of download_video is interrupted
    (KeyboardInterrupt), the run ends with the cancellation message; when
    it raises any other exception, the run ends with the error message
    carrying the text of that exception; the two messages are never the
    same. *)
Theorem interrupt_cancelled_exception_failed
    (YoutubeDL : gmap string optval -> M ydl) (a : download_args)
    (w w1 w2 : world) :
  download_prelude a w = (w1, Ok tt) ->
  (download_body YoutubeDL a w1 = (w2, Raise KeyboardInterrupt) ->
   download_video YoutubeDL a w =
     (add_out w2 [(newline +:+ newline +:+ "⚠️  Download cancelled by user")
                  +:+ newline], Ok false)) /\
  (forall cls msg,
     download_body YoutubeDL a w1 = (w2, Raise (Exception cls msg)) ->
     download_video YoutubeDL a w =
       (add_out w2 [(newline +:+ "❌ Error: " +:+ msg) +:+ newline], Ok false)) /\
  (forall msg,
     newline +:+ newline +:+ "⚠️  Download cancelled by user"
       <> newline +:+ "❌ Error: " +:+ msg).
Proof.
  intros Hp. split; [|split].
  - intros Hb. by rewrite (download_video_spec _ _ _ _ Hp), Hb.
  - intros cls msg Hb. by rewrite (download_video_spec _ _ _ _ Hp), Hb.
  - intros msg. apply (cancelled_not_error (Exception "" msg)).
Qed.

Lemma interrupt_cancelled_exception_failed_witness :
  let a := sample_args "best" None in
  let w1 := (download_prelude a sample_world).1 in
  let E1 := sample_YoutubeDL (Raise KeyboardInterrupt) in
  let E2 := sample_YoutubeDL (Raise (Exception "DownloadError" "ERROR: timed out")) in
  download_video E1 a sample_world =
    (add_out (download_body E1 a w1).1
       [(newline +:+ newline +:+ "⚠️  Download cancelled by user") +:+ newline],
     Ok false) /\
  download_video E2 a sample_world =
    (add_out (download_body E2 a w1).1
       [(newline +:+ "❌ Error: " +:+ "ERROR: timed out") +:+ newline],
     Ok false).
Proof.
  intros a w1 E1 E2. split.
  - apply (interrupt_cancelled_exception_failed E1 a sample_world w1
             (download_body E1 a w1).1); vm_compute; reflexivity.
  - apply (interrupt_cancelled_exception_failed E2 a sample_world w1
             (download_body E2 a w1).1) with (cls := "DownloadError");
      vm_compute; reflexivity.
Defined.

(** C9. download_video returns True exactly when the body of its [try]
    completes without an exception, and returns False when the body
    raises, be it KeyboardInterrupt or any other exception: the value
    returned does not tell a cancellation from a failure. *)
Theorem return_value_hides_cancellation
    (YoutubeDL : gmap string optval -> M ydl) (a : download_args)
    (w w1 : world) :
  download_prelude a w = (w1, Ok tt) ->
  ((download_video YoutubeDL a w).2 = Ok true <->
   exists w2 b, download_body YoutubeDL a w1 = (w2, Ok b)) /\
  (forall w2, download_body YoutubeDL a w1 = (w2, Raise KeyboardInterrupt) ->
     (download_video YoutubeDL a w).2 = Ok false) /\
  (forall w2 cls msg,
     download_body YoutubeDL a w1 = (w2, Raise (Exception cls msg)) ->
     (download_video YoutubeDL a w).2 = Ok false).
Proof.
  intros Hp. rewrite (download_video_spec _ _ _ _ Hp).
  destruct (download_body YoutubeDL a w1) as [w2 [b|[|cls msg]]] eqn:Hb.
  - apply download_body_true in Hb as ->. simpl.
    split; [|split]; [split|..]; eauto; discriminate.
  - simpl. split; [|split]; [split|..]; try done.
    intros (? & ? & ?); discriminate.
  - simpl. split; [|split]; [split|..]; try done.
    intros (? & ? & ?); discriminate.
Qed.

Lemma return_value_hides_cancellation_witness :
  let a := sample_args "best" None in
  (download_video (sample_YoutubeDL (Ok tt)) a sample_world).2 = Ok true /\
  (download_video (sample_YoutubeDL (Raise KeyboardInterrupt)) a sample_world).2
    = Ok false /\
  (download_video (sample_YoutubeDL (Raise (Exception "DownloadError" "ERROR: timed out")))
     a sample_world).2 = Ok false.
Proof.
  intros a.
  assert (Hp : download_prelude a sample_world
               = ((download_prelude a sample_world).1, Ok tt))
    by (vm_compute; reflexivity).
  split; [|split].
  - apply (proj1 (return_value_hides_cancellation _ _ _ _ Hp)).
    eexists _, _. vm_compute. reflexivity.
  - eapply (proj1 (proj2 (return_value_hides_cancellation _ _ _ _ Hp))).
    vm_compute. reflexivity.
  - eapply (proj2 (proj2 (return_value_hides_cancellation _ _ _ _ Hp))).
    vm_compute. reflexivity.
Defined.





(* --------------------------------------------------------------------- *)
(* Creation of the output directory                                      *)
(* --------------------------------------------------------------------- *)

(** In the branch where [mkdir_parents] recurses, the path it recurses on
    is the parent. *)
Lemma parent_cons a q : parent (a :: q) <> a :: q -> parent (a :: q) = q.
Proof.
  destruct q as [|b q]; simpl; [|done].
  destruct (is_anchor a); congruence.
Qed.

Lemma os_mkdir_Ok p w w' : os_mkdir p w = (w', Ok tt) -> is_dir p w' = true.
Proof.
  unfold os_mkdir, is_dir.
  destruct (w_fs w !! p); [discriminate|].
  destruct (w_fs w !! parent p) as [[]|]; try discriminate.
  intros [= <-]. simpl. by rewrite lookup_insert_eq.
Qed.

(** On a directory that exists, [os.mkdir] raises FileExistsError. *)
Lemma os_mkdir_existing p w :
  is_dir p w = true ->
  os_mkdir p w = (w, Raise (os_error "FileExistsError" "[Errno 17] File exists" p)).
Proof.
  unfold os_mkdir, is_dir. by destruct (w_fs w !! p) as [[]|].
Qed.

Lemma mkdir_noparents_Ok p w w' :
  mkdir_noparents p true w = (w', Ok tt) -> is_dir p w' = true.
Proof.
  unfold mkdir_noparents.
  destruct (os_mkdir p w) as [w1 [[]|e]] eqn:Hm.
  - intros [= <-]. by apply os_mkdir_Ok in Hm.
  - destruct (is_FileNotFoundError e); [discriminate|]. simpl.
    destruct (is_dir p w1) eqn:Hd; [|discriminate]. by intros [= <-].
Qed.

(** A successful [mkdir(parents=True, exist_ok=True)] leaves a directory. *)
Lemma mkdir_parents_Ok p w w' :
  mkdir_parents p true w = (w', Ok tt) -> is_dir p w' = true.
Proof.
  destruct p as [|a q]; simpl.
  - destruct (os_mkdir [] w) as [w1 [[]|e]] eqn:Hm.
    + intros [= <-]. by apply os_mkdir_Ok in Hm.
    + destruct (is_FileNotFoundError e); [discriminate|]. simpl.
      destruct (is_dir [] w1) eqn:Hd; [|discriminate]. by intros [= <-].
  - destruct (os_mkdir (a :: q) w) as [w1 [[]|e]] eqn:Hm.
    + intros [= <-]. by apply os_mkdir_Ok in Hm.
    + destruct (is_FileNotFoundError e).
      * case_bool_decide; [discriminate|].
        unfold mbind, M_bind.
        destruct (mkdir_parents q true w1) as [w2 [[]|e2]]; [|discriminate].
        apply mkdir_noparents_Ok.
      * simpl. destruct (is_dir (a :: q) w1) eqn:Hd; [|discriminate].
        by intros [= <-].
Qed.

(** On a directory that exists, [mkdir(parents=True, exist_ok=True)]
    returns and changes nothing. *)
Lemma mkdir_parents_existing p w :
  is_dir p w = true -> mkdir_parents p true w = (w, Ok tt).
Proof.
  intros Hd. destruct p as [|a q]; simpl;
    rewrite (os_mkdir_existing _ _ Hd); simpl; by rewrite Hd.
Qed.

Lemma is_dir_add_out p w l : is_dir p (add_out w l) = is_dir p w.
Proof. reflexivity. Qed.

(** Where the output directory exists, the steps of download_video that
    precede the [try] return, and write to the console only. *)
Lemma download_prelude_existing_dir a w :
  is_dir (Path (output_dir a)) w = true ->
  download_prelude a w = (add_out w (prelude_lines a w), Ok tt).
Proof.
  intros Hd. by rewrite download_prelude_spec, mkdir_parents_existing.
Qed.

(** C8. Creating the output directory is idempotent.  Once the steps of
    download_video that precede the [try] have run without failing, the
    output directory exists; and in every world where it exists, running
    them again on the same output directory does not fail and leaves the
    file system as it is, so that download_video as a whole raises
    nothing. *)
Theorem output_dir_creation_idempotent (a a' : download_args) (w w1 : world) :
  download_prelude a w = (w1, Ok tt) ->
  output_dir a' = output_dir a ->
  is_dir (Path (output_dir a)) w1 = true /\
  forall w', is_dir (Path (output_dir a)) w' = true ->
    (exists w2, download_prelude a' w' = (w2, Ok tt) /\ w_fs w2 = w_fs w') /\
    forall YoutubeDL : gmap string optval -> M ydl,
      is_Raise (download_video YoutubeDL a' w').2 = false.
Proof.
  intros Hp Ho. rewrite download_prelude_spec in Hp.
  destruct (mkdir_parents (Path (output_dir a)) true w) as [wm [[]|e]] eqn:Hm;
    [|discriminate].
  injection Hp as <-.
  apply mkdir_parents_Ok in Hm.
  split; [by rewrite is_dir_add_out|].
  intros w' Hd. rewrite <- Ho in Hd.
  pose proof (download_prelude_existing_dir a' w' Hd) as Hp'.
  split; [by eexists|].
  intros YoutubeDL. rewrite (download_video_spec _ _ _ _ Hp').
  by destruct (download_body _ _ _) as [w2 [b|[|cls msg]]].
Qed.

Lemma output_dir_creation_idempotent_witness :
  let a := sample_args "best" None in
  let a' := sample_args "720" None in
  let w1 := (download_prelude a sample_world).1 in
  is_dir (Path "downloads") sample_world = false /\
  is_dir (Path "downloads") w1 = true /\
  (exists w2, download_prelude a' w1 = (w2, Ok tt) /\ w_fs w2 = w_fs w1) /\
  is_Raise (download_video (sample_YoutubeDL (Ok tt)) a' w1).2 = false.
Proof.
  intros a a' w1.
  destruct (output_dir_creation_idempotent a a' sample_world w1) as [Hd Hagain];
    [vm_compute; reflexivity | reflexivity |].
  destruct (Hagain w1 Hd) as [Hsecond Hvideo].
  split; [vm_compute; reflexivity|].
  split; [exact Hd|]. split; [exact Hsecond | apply Hvideo].
Defined.

(** Directories are made with their parents. *)
Example mkdir_with_parents :
  let r := mkdir_parents (Path "media/video/new") true sample_world in
  r.2 = Ok tt /\
  is_dir (Path "media") r.1 = true /\
  is_dir (Path "media/video") r.1 = true /\
  is_dir (Path "media/video/new") r.1 = true.
Proof. vm_compute. repeat split; reflexivity. Qed.

(** A file in the way is an error, the second time as the first. *)
Example mkdir_on_file :
  let w := World (<[ ["downloads"] := File ]> {[ [] := Dir ]}) "/home/user" [] in
  is_Raise (mkdir_parents (Path "downloads") true w).2 = true.
Proof. vm_compute. reflexivity. Qed.

(* --------------------------------------------------------------------- *)
(* progress_hook                                                         *)
(* --------------------------------------------------------------------- *)

Lemma append_empty_r (s : string) : s +:+ "" = s.
Proof.
  induction s as [|c s IH]; [reflexivity|].
  change (String c (s +:+ "") = String c s). by rewrite IH.
Qed.

Lemma append_assoc (s1 s2 s3 : string) : s1 +:+ s2 +:+ s3 = (s1 +:+ s2) +:+ s3.
Proof.
  induction s1 as [|c s1 IH]; [reflexivity|].
  change (String c (s1 +:+ s2 +:+ s3) = String c ((s1 +:+ s2) +:+ s3)).
  by rewrite IH.
Qed.

Lemma eq_str_false v s : v <> PStr s -> eq_str v s = false.
Proof.
  destruct v as [| | |t]; simpl; try done.
  intros Hv. apply String.eqb_neq. congruence.
Qed.

Lemma eq_str_true v s : eq_str v s = true -> v = PStr s.
Proof.
  destruct v as [| | |t]; simpl; try done.
  intros Hv. apply String.eqb_eq in Hv. congruence.
Qed.

(** What the hook does, by the status of the event. *)
Lemma progress_hook_spec d w v :
  d !! "status" = Some v ->
  progress_hook d w =
    if eq_str v "downloading" then (add_out w [downloading_line d], Ok tt)
    else if eq_str v "finished" then (add_out w [finished_line +:+ newline], Ok tt)
    else (w, Ok tt).
Proof.
  intros Hs. unfold progress_hook, dict_item, lift, mbind, M_bind. rewrite Hs.
  destruct (eq_str v "downloading").
  - by rewrite print_end_spec, append_empty_r.
  - destruct (eq_str v "finished"); [by rewrite print_spec | done].
Qed.

(** Without a status the subscription raises KeyError. *)
Lemma progress_hook_no_status d w :
  d !! "status" = None ->
  progress_hook d w = (w, Raise (Exception "KeyError" "'status'")).
Proof.
  intros Hs. unfold progress_hook, dict_item, lift, mbind, M_bind. by rewrite Hs.
Qed.



(** On a console that takes every chunk the hook is [progress_hook]. *)
Lemma progress_hook_on_ideal d w :
  progress_hook_on (fun _ => Ok tt) d w = progress_hook d w.
Proof. reflexivity. Qed.




(** C10. On an event whose status is neither "downloading" nor
    "finished", the engine's "error" among them, progress_hook writes
    nothing and returns. *)
Theorem progress_hook_silent_on_other_status (d : gmap string pyval)
    (w : world) (v : pyval) :
  d !! "status" = Some v ->
  v <> PStr "downloading" -> v <> PStr "finished" ->
  progress_hook d w = (w, Ok tt).
Proof.
  intros Hs Hd Hf. rewrite (progress_hook_spec _ _ _ Hs).
  by rewrite !eq_str_false.
Qed.

Lemma progress_hook_silent_on_other_status_witness :
  progress_hook (<["message" := PStr "HTTP Error 403"]> {[ "status" := PStr "error" ]})
    sample_world = (sample_world, Ok tt).
Proof.
  apply (progress_hook_silent_on_other_status _ _ (PStr "error"));
    [reflexivity | discriminate | discriminate].
Defined.

(** The two statuses that are shown. *)
Lemma progress_hook_output_iff d w v :
  d !! "status" = Some v ->
  w_out (progress_hook d w).1 <> w_out w <->
  v = PStr "downloading" \/ v = PStr "finished".
Proof.
  intros Hs. rewrite (progress_hook_spec _ _ _ Hs). split.
  - destruct (eq_str v "downloading") eqn:Hd; [apply eq_str_true in Hd; auto|].
    destruct (eq_str v "finished") eqn:Hf; [apply eq_str_true in Hf; auto|].
    simpl. congruence.
  - assert (Hne : forall x : string, w_out w ++ [x] <> w_out w).
    { intros x Hx. apply (f_equal length) in Hx.
      rewrite length_app in Hx. simpl in Hx. lia. }
    intros [-> | ->]; simpl; apply Hne.
Qed.

(* --------------------------------------------------------------------- *)
(* list_formats                                                          *)
(* --------------------------------------------------------------------- *)

(** The loop writes one row per record, in the order of the list. *)
Lemma print_rows_spec fs w :
  print_rows fs w = (add_out w (map (fun f => format_row f +:+ newline) fs), Ok tt).
Proof.
  revert w. induction fs as [|f fs IH]; intros w; simpl.
  - by rewrite add_out_nil.
  - erewrite bind_Ok by apply print_spec.
    by rewrite IH, add_out_add_out.
Qed.

(** The tenths shown are the nearest to the size in MB. *)
Lemma tenths_of_MiB_nearest (a : Z) :
  0 <= a ->
  0 <= tenths_of_MiB a /\
  2 * Z.abs (10 * a - 2 ^ 20 * tenths_of_MiB a) <= 2 ^ 20.
Proof.
  intros Ha. unfold tenths_of_MiB.
  change (2 ^ 20) with 1048576.
  pose proof (Z.div_mod (10 * a) 1048576 ltac:(lia)) as Hdm.
  pose proof (Z.mod_pos_bound (10 * a) 1048576 ltac:(lia)) as Hm.
  assert (Hq : 0 <= 10 * a / 1048576) by (apply Z.div_pos; lia).
  repeat case_match; lia.
Qed.

Lemma format_MiB_1f_one_decimal (n : Z) : one_decimal_MB n (format_MiB_1f n +:+ "MB").
Proof.
  destruct (tenths_of_MiB_nearest (Z.abs n) (Z.abs_nonneg n)) as [H0 H1].
  exists (tenths_of_MiB (Z.abs n)). repeat split; [done..|].
  unfold format_MiB_1f. by rewrite <- !append_assoc.
Qed.

Lemma filesize_str_approx f n :
  filesize_approx f = Some (Some n) -> n <> 0 ->
  filesize_str f = format_MiB_1f n +:+ "MB".
Proof.
  intros Ha Hn. unfold filesize_str, filesize_read. rewrite Ha.
  by apply Z.eqb_neq in Hn as ->.
Qed.

Lemma filesize_str_exact f n :
  filesize_approx f = None -> filesize f = Some (Some n) -> n <> 0 ->
  filesize_str f = format_MiB_1f n +:+ "MB".
Proof.
  intros Ha Hf Hn. unfold filesize_str, filesize_read. rewrite Ha, Hf.
  by apply Z.eqb_neq in Hn as ->.
Qed.

Lemma filesize_str_no_size f :
  no_size (filesize_approx f) = true -> no_size (filesize f) = true ->
  filesize_str f = "N/A".
Proof.
  unfold filesize_str, filesize_read, no_size.
  destruct (filesize_approx f) as [[n|]|], (filesize f) as [[m|]|];
    intros Ha Hf; try rewrite Ha; try rewrite Hf; done.
Qed.

Section ListerFacts.

Variable YoutubeDL : gmap string optval -> M ydl.

(** What [list_formats] writes when the engine answers with records. *)
Lemma list_formats_spec u w w1 w2 y i fs :
  YoutubeDL list_opts
    (add_out w [("📋 Available formats for: " +:+ u +:+ newline) +:+ newline])
    = (w1, Ok y) ->
  extract_info y u w1 = (w2, Ok (Some i)) ->
  info_formats i = Some fs ->
  list_formats YoutubeDL u w = (add_out w2 (table_lines fs), Ok tt).
Proof.
  intros Hy Hi Hf. unfold list_formats.
  erewrite bind_Ok by apply print_spec.
  unfold try_exception, list_body.
  erewrite bind_Ok by exact Hy. erewrite bind_Ok by exact Hi.
  cbv beta iota. rewrite Hf.
  erewrite bind_Ok by apply print_spec.
  erewrite bind_Ok by apply print_spec.
  erewrite bind_Ok by apply print_rows_spec.
  erewrite bind_Ok by apply print_spec.
  rewrite print_spec, !add_out_add_out. reflexivity.
Qed.

End ListerFacts.

Lemma format_ljust_text (f : gmap string pyval) (k dflt : string) (w : nat) :
  text_ok f k = true ->
  format_ljust w (dict_get f k (PStr dflt))
    = Ok (ljust w (default dflt (text_field f k))).
Proof.
  unfold text_ok, dict_get, text_field.
  by destruct (f !! k) as [[| | |t]|].
Qed.

Lemma resolution_raw_typed (f : gmap string pyval) :
  text_ok f "resolution" = true ->
  format_ljust 10 (resolution_raw f) = Ok (ljust 10 (resolution_str (typed_of f))).
Proof.
  unfold text_ok, resolution_raw, resolution_str, typed_of, dict_get, text_field.
  simpl resolution. simpl vcodec.
  destruct (f !! "resolution") as [[| | |t]|]; try done. intros _.
  destruct (f !! "vcodec") as [[| | |c]|]; try done.
  simpl. by destruct (String.eqb c "none").
Qed.

Lemma filesize_str_raw_typed (f : gmap string pyval) :
  size_ok f "filesize_approx" = true -> size_ok f "filesize" = true ->
  filesize_str_raw f = Ok (filesize_str (typed_of f)).
Proof.
  unfold size_ok, filesize_str_raw, filesize_str, filesize_read, typed_of,
    dict_get, size_field.
  simpl filesize_approx. simpl filesize.
  destruct (f !! "filesize_approx") as [[| |n|]|]; try done; intros _.
  - simpl. by destruct (n =? 0).
  - destruct (f !! "filesize") as [[| |m|]|]; try done; intros _.
    simpl. by destruct (m =? 0).
Qed.

(** On a listable record nothing raises, and the row is the row of the
    record read as a [format_record]. *)
Lemma format_row_raw_listable (f : gmap string pyval) :
  listable f = true -> format_row_raw f = Ok (format_row (typed_of f)).
Proof.
  unfold listable. rewrite !andb_true_iff.
  intros [[[[[Hid Hext] Hres] Hnote] Hap] Hfs].
  unfold format_row_raw.
  rewrite (filesize_str_raw_typed f Hap Hfs). simpl and_then.
  rewrite (format_ljust_text f "format_id" "N/A" 10 Hid). simpl and_then.
  rewrite (format_ljust_text f "ext" "N/A" 15 Hext). simpl and_then.
  rewrite (resolution_raw_typed f Hres). simpl and_then.
  rewrite (format_ljust_text f "format_note" "" 10 Hnote). simpl and_then.
  reflexivity.
Qed.

Lemma print_rows_raw_listable (fs : list (gmap string pyval)) (w : world) :
  Forall (fun f => listable f = true) fs ->
  print_rows_raw fs w =
    (add_out w (map (fun f => format_row (typed_of f) +:+ newline) fs), Ok tt).
Proof.
  intros Hfs. revert w. induction Hfs as [|f fs Hf _ IH]; intros w; simpl.
  - by rewrite add_out_nil.
  - unfold lift. erewrite bind_Ok by (by rewrite (format_row_raw_listable f Hf)).
    erewrite bind_Ok by apply print_spec.
    by rewrite IH, add_out_add_out.
Qed.

(** C7, as stated, fails.  A record whose size is known to be 0 bytes
    gets "N/A" in the size column.  And a record whose resolution is
    present and None gets no row: formatting it raises TypeError, the
    table ends there with the error line, and of three records one row
    is written. *)
Lemma known_size_or_record_not_rendered :
  let f0 : gmap string pyval :=
    <["filesize" := PInt 0]> (<["ext" := PStr "mp4"]> {[ "format_id" := PStr "18" ]}) in
  let fs := [ <["ext" := PStr "mp4"]> {[ "format_id" := PStr "137" ]};
              raw_no_resolution;
              <["ext" := PStr "m4a"]> {[ "format_id" := PStr "140" ]} ] in
  let u := "https://example.com/video" in
  f0 !! "filesize" = Some (PInt 0) /\
  filesize_str_raw f0 = Ok "N/A" /\
  list_formats_raw (raw_listing_YoutubeDL fs) u sample_world =
    (add_out sample_world
       [ ("📋 Available formats for: " +:+ u +:+ newline) +:+ newline;
         table_header +:+ newline;
         table_rule +:+ newline;
         "137        mp4             N/A        N/A                       "
           +:+ newline;
         ("❌ Error listing formats: "
            +:+ "unsupported format string passed to NoneType.__format__")
           +:+ newline ],
     Ok tt).
Proof. vm_compute. repeat split; reflexivity. Qed.

Section RawListerFacts.

Variable YoutubeDL : gmap string optval -> M raw_ydl.

(** What list_formats writes when the engine answers with listable
    records. *)
Lemma list_formats_raw_spec u w w1 w2 y i fs :
  YoutubeDL list_opts (add_out w [list_banner u]) = (w1, Ok y) ->
  raw_extract_info y u w1 = (w2, Ok (Some i)) ->
  raw_formats i = Some fs ->
  Forall (fun f => listable f = true) fs ->
  list_formats_raw YoutubeDL u w =
    (add_out w2 (table_lines (map typed_of fs)), Ok tt).
Proof.
  intros Hy Hi Hf Hfs. unfold list_formats_raw.
  erewrite bind_Ok by apply print_spec.
  unfold try_exception, list_body_raw.
  erewrite bind_Ok by exact Hy. erewrite bind_Ok by exact Hi.
  cbv beta iota. rewrite Hf.
  erewrite bind_Ok by apply print_spec.
  erewrite bind_Ok by apply print_spec.
  erewrite bind_Ok by (by apply print_rows_raw_listable).
  erewrite bind_Ok by apply print_spec.
  rewrite print_spec, !add_out_add_out. unfold table_lines.
  by rewrite map_map.
Qed.

End RawListerFacts.

(** C7, amended. When the engine answers with a sequence of format
    records in which the format_id, ext, resolution and format_note of
    each record are absent or strings of ASCII characters and its
    filesize_approx and filesize are absent, None or integers below 2^53
    bytes, list_formats writes, between the header and the footer,
    exactly one row per record, in the order of the sequence, and raises
    nothing.  The size column of a row is the size in MB with one decimal
    followed by "MB" when the record's filesize_approx is a non-zero
    integer, or when the record has no filesize_approx and its filesize
    is a non-zero integer; it is "N/A" when neither key gives a size
    other than None or 0. *)
Theorem list_formats_rows_and_sizes_listable
    (YoutubeDL : gmap string optval -> M raw_ydl) (u : string) (w w1 w2 : world)
    (y : raw_ydl) (i : raw_info) (fs : list (gmap string pyval)) :
  YoutubeDL list_opts
    (add_out w [("📋 Available formats for: " +:+ u +:+ newline) +:+ newline])
    = (w1, Ok y) ->
  raw_extract_info y u w1 = (w2, Ok (Some i)) ->
  raw_formats i = Some fs ->
  Forall (fun f => listable f = true) fs ->
  list_formats_raw YoutubeDL u w =
    (add_out w2
       ([table_header +:+ newline; table_rule +:+ newline]
        ++ map (fun f => format_row (typed_of f) +:+ newline) fs
        ++ [(newline +:+ "💡 Use -f FORMAT_ID to download a specific format")
              +:+ newline;
            "   Example: python script.py download URL -f 137+140" +:+ newline]),
     Ok tt) /\
  forall f, f ∈ fs ->
    format_row_raw f = Ok (format_row (typed_of f)) /\
    format_row (typed_of f) =
      format_columns (default "N/A" (text_field f "format_id"))
        (default "N/A" (text_field f "ext")) (resolution_str (typed_of f))
        (filesize_str (typed_of f)) (default "" (text_field f "format_note")) /\
    filesize_str_raw f = Ok (filesize_str (typed_of f)) /\
    (forall n, f !! "filesize_approx" = Some (PInt n) -> n <> 0 ->
       one_decimal_MB n (filesize_str (typed_of f))) /\
    (forall n, f !! "filesize_approx" = None -> f !! "filesize" = Some (PInt n) ->
       n <> 0 -> one_decimal_MB n (filesize_str (typed_of f))) /\
    (no_size (size_field f "filesize_approx") = true ->
     no_size (size_field f "filesize") = true ->
     filesize_str (typed_of f) = "N/A").
Proof.
  intros Hy Hi Hf Hfs. split.
  - rewrite (list_formats_raw_spec YoutubeDL u w w1 w2 y i fs Hy Hi Hf Hfs).
    unfold table_lines. by rewrite map_map.
  - intros f Hin. rewrite Forall_forall in Hfs. specialize (Hfs f Hin).
    split; [by apply format_row_raw_listable|]. split; [reflexivity|].
    assert (Hl := Hfs). unfold listable in Hl. rewrite !andb_true_iff in Hl.
    destruct Hl as [[[[[_ _] _] _] Hap] Hsz].
    split; [by apply filesize_str_raw_typed|].
    split; [|split].
    + intros n Ha Hn.
      rewrite (filesize_str_approx (typed_of f) n);
        [|by simpl; unfold size_field; rewrite Ha|done].
      apply format_MiB_1f_one_decimal.
    + intros n Ha He Hn.
      rewrite (filesize_str_exact (typed_of f) n);
        [|by simpl; unfold size_field; rewrite Ha
         |by simpl; unfold size_field; rewrite He|done].
      apply format_MiB_1f_one_decimal.
    + apply (filesize_str_no_size (typed_of f)).
Qed.

Lemma list_formats_rows_and_sizes_listable_witness :
  let u := "https://example.com/video" in
  let w1 := add_out sample_world
              [("📋 Available formats for: " +:+ u +:+ newline) +:+ newline] in
  list_formats_raw (raw_listing_YoutubeDL raw_sample_formats) u sample_world =
    (add_out w1
       [ table_header +:+ newline; table_rule +:+ newline;
         "137        mp4             1920x1080  117.7MB         1080p     "
           +:+ newline;
         "140        m4a             audio only 3.2MB           medium    "
           +:+ newline;
         "sb0        mhtml           48x27      N/A                       "
           +:+ newline;
         (newline +:+ "💡 Use -f FORMAT_ID to download a specific format")
           +:+ newline;
         "   Example: python script.py download URL -f 137+140" +:+ newline ],
     Ok tt) /\
  one_decimal_MB 123456789 "117.7MB" /\
  one_decimal_MB 3407872 "3.2MB".
Proof.
  intros u w1.
  assert (Hfs : Forall (fun f => listable f = true) raw_sample_formats).
  { repeat constructor. }
  destruct (list_formats_rows_and_sizes_listable
              (raw_listing_YoutubeDL raw_sample_formats) u sample_world w1 w1
              (RawYdl (fun _ => mret (Some (RawInfo (Some raw_sample_formats)))))
              (RawInfo (Some raw_sample_formats)) raw_sample_formats
              eq_refl eq_refl eq_refl Hfs) as [Hrows Hsizes].
  split; [|split].
  - refine (eq_trans Hrows _). vm_compute. reflexivity.
  - destruct (Hsizes (raw_sample_formats !!! 0%nat)) as (_ & _ & _ & _ & Hexact & _).
    { apply list_elem_of_here. }
    apply (Hexact 123456789); [reflexivity | reflexivity | discriminate].
  - destruct (Hsizes (raw_sample_formats !!! 1%nat)) as (_ & _ & _ & Happrox & _).
    { apply list_elem_of_further, list_elem_of_here. }
    apply (Happrox 3407872); [reflexivity | discriminate].
Defined.

(** The rows of the three sample records. *)
Example sample_rows :
  map format_row sample_formats =
    [ "137        mp4             1920x1080  117.7MB         1080p     ";
      "140        m4a             audio only 3.2MB           medium    ";
      "sb0        mhtml           48x27      N/A                       " ].
Proof. vm_compute. reflexivity. Qed.

(** When the metadata has no formats, or the engine fails, the lister
    says so and returns. *)
Example list_formats_engine_error :
  let E := fun _ : gmap string optval =>
             (raise (Exception "DownloadError" "ERROR: Unsupported URL") : M ydl) in
  (list_formats E "https://example.com/x" sample_world).2 = Ok tt /\
  last (w_out (list_formats E "https://example.com/x" sample_world).1)
    = Some ("❌ Error listing formats: ERROR: Unsupported URL" +:+ newline).
Proof. vm_compute. split; reflexivity. Qed.

(* ===================================================================== *)
(* Further properties                                                    *)
(* ===================================================================== *)

(* --------------------------------------------------------------------- *)
(* The options: what every branch keeps                                  *)
(* --------------------------------------------------------------------- *)

(** The format selection and the subtitle options write none of the base
    keys. *)
Lemma ydl_opts_base_key a k :
  k ∈ base_keys -> ydl_opts a !! k = base_opts a !! k.
Proof.
  intros Hk. unfold base_keys in Hk. set_unfold in Hk.
  unfold ydl_opts, subtitle_opts, select_format.
  destruct_or!; subst k; repeat case_match; simpl; by rewrite ?lookup_insert_ne.
Qed.

(** X1. Whatever the arguments, the options handed to the engine keep the
    base settings: the output template in the output directory, errors of
    single items ignored, the playlist start and the no-playlist flag as
    given, 5 retries and 5 fragment retries, and progress_hook as the one
    progress hook; no branch of the format selection or of the subtitle
    options overwrites them. *)
Theorem base_options_kept (a : download_args) :
  ydl_opts a !! "outtmpl"
    = Some (OStr (os_path_join (output_dir a) "%(title)s.%(ext)s")) /\
  ydl_opts a !! "ignoreerrors" = Some (OBool true) /\
  ydl_opts a !! "playliststart" = Some (OInt (start a)) /\
  ydl_opts a !! "noplaylist" = Some (OBool (no_playlist a)) /\
  ydl_opts a !! "retries" = Some (OInt 5) /\
  ydl_opts a !! "fragment_retries" = Some (OInt 5) /\
  ydl_opts a !! "progress_hooks" = Some (OList [OFunc "progress_hook"]).
Proof.
  repeat split; (rewrite ydl_opts_base_key by (unfold base_keys; set_solver));
    unfold base_opts; by simplify_map_eq.
Qed.

Lemma dom_base_opts a : dom (base_opts a) = base_keys.
Proof.
  unfold base_opts, base_keys. rewrite !dom_insert_L, dom_empty_L. set_solver.
Qed.

(** X2. The keys of the options handed to the engine are the seven base
    keys and "format", with "postprocessors" exactly when audio_only is
    set, and the three subtitle keys exactly when subtitle is set: a
    selector is always given, and nothing else is ever passed. *)
Theorem ydl_opts_keys (a : download_args) :
  dom (ydl_opts a) =
    base_keys ∪ {[ "format" ]}
    ∪ (if audio_only a then {[ "postprocessors" ]} else ∅)
    ∪ (if subtitle a
       then {[ "writesubtitles"; "writeautomaticsub"; "subtitleslangs" ]}
       else ∅).
Proof.
  unfold ydl_opts, subtitle_opts, select_format.
  destruct (audio_only a), (subtitle a); repeat case_match; simpl;
    rewrite !dom_insert_L, dom_base_opts; set_solver.
Qed.

(** X3. With subtitle set, the options ask for the subtitles written by
    the author and the automatic ones, in English only; without it, none
    of the three subtitle keys is passed. *)
Theorem subtitle_options (a : download_args) :
  (subtitle a = true ->
   ydl_opts a !! "writesubtitles" = Some (OBool true) /\
   ydl_opts a !! "writeautomaticsub" = Some (OBool true) /\
   ydl_opts a !! "subtitleslangs" = Some (OList [OStr "en"])) /\
  (subtitle a = false ->
   ydl_opts a !! "writesubtitles" = None /\
   ydl_opts a !! "writeautomaticsub" = None /\
   ydl_opts a !! "subtitleslangs" = None).
Proof.
  split; intros Hs.
  - unfold ydl_opts, subtitle_opts. rewrite Hs.
    repeat split; by simplify_map_eq.
  - unfold ydl_opts, subtitle_opts, select_format, base_opts. rewrite Hs.
    repeat split; repeat case_match; simpl; by simplify_map_eq.
Qed.

Lemma subtitle_options_witness :
  let a := DownloadArgs "https://example.com/video" true "downloads" 1 "best"
             None true false in
  ydl_opts a !! "subtitleslangs" = Some (OList [OStr "en"]) /\
  ydl_opts (sample_args "best" None) !! "subtitleslangs" = None.
Proof.
  intros a. split.
  - apply (proj1 (subtitle_options a)). reflexivity.
  - apply (proj2 (subtitle_options (sample_args "best" None))). reflexivity.
Defined.

(* --------------------------------------------------------------------- *)
(* The output template and the output directory                          *)
(* --------------------------------------------------------------------- *)

Lemma last_char (s : string) :
  s = "" \/
  exists s' c, s = s' +:+ String c "" /\
    rev (list_ascii_of_string s) = c :: rev (list_ascii_of_string s').
Proof.
  induction s as [|a s IH]; [by left|]. right.
  destruct IH as [-> | (s' & c & -> & Hr)].
  - by exists "", a.
  - exists (String a s'), c. split; [reflexivity|].
    change (list_ascii_of_string (String a (s' +:+ String c "")))
      with (a :: list_ascii_of_string (s' +:+ String c "")).
    change (list_ascii_of_string (String a s')) with (a :: list_ascii_of_string s').
    simpl rev. by rewrite Hr.
Qed.

Lemma split_slash_app (a b cur : string) :
  split_slash (a +:+ String slash b) cur = split_slash a cur ++ split_slash b "".
Proof.
  revert cur. induction a as [|c a IH]; intros cur.
  - reflexivity.
  - change (String c a +:+ String slash b) with (String c (a +:+ String slash b)).
    simpl. destruct (Ascii.eqb c slash); simpl; by rewrite IH.
Qed.

Lemma leading_slashes_app (o x : string) :
  leading_slashes x = 0%nat -> leading_slashes (o +:+ x) = leading_slashes o.
Proof.
  intros Hx. induction o as [|c o IH]; [done|].
  change (String c o +:+ x) with (String c (o +:+ x)). simpl.
  destruct (Ascii.eqb c slash); [by rewrite IH | done].
Qed.

Lemma os_path_join_template (o : string) :
  os_path_join o "%(title)s.%(ext)s" =
    if String.eqb o "" || ends_with_slash o then o +:+ "%(title)s.%(ext)s"
    else o +:+ String slash "%(title)s.%(ext)s".
Proof. reflexivity. Qed.

(** The parts of the template joined to a directory are the parts of the
    directory and the template. *)
Lemma Path_os_path_join_template (o : string) :
  Path (os_path_join o "%(title)s.%(ext)s") = "%(title)s.%(ext)s" :: Path o.
Proof.
  rewrite os_path_join_template. unfold Path, anchor, ends_with_slash.
  destruct (last_char o) as [-> | (o' & c & -> & Hr)]; [reflexivity|].
  rewrite Hr. replace (String.eqb (o' +:+ String c "") "") with false
    by (by destruct o').
  simpl orb. destruct (Ascii.eqb c slash) eqn:Hc.
  - apply Ascii.eqb_eq in Hc as ->.
    rewrite <- append_assoc.
    change (String slash "" +:+ "%(title)s.%(ext)s")
      with (String slash "%(title)s.%(ext)s").
    rewrite !split_slash_app.
    assert (Hl : leading_slashes (o' +:+ String slash "%(title)s.%(ext)s")
                 = leading_slashes (o' +:+ String slash "")).
    { clear. induction o' as [|c o IH]; [reflexivity|].
      change (leading_slashes (String c (o +:+ String slash "%(title)s.%(ext)s"))
              = leading_slashes (String c (o +:+ String slash ""))).
      simpl. by rewrite IH. }
    rewrite Hl. rewrite !List.filter_app. simpl.
    rewrite app_nil_r, !app_assoc, rev_unit. reflexivity.
  - rewrite <- append_assoc.
    change (String c "" +:+ String slash "%(title)s.%(ext)s")
      with (String c (String slash "%(title)s.%(ext)s")).
    assert (Hl : forall y, leading_slashes (o' +:+ String c y) = leading_slashes o').
    { intros y. apply leading_slashes_app. simpl. by rewrite Hc. }
    rewrite !Hl.
    rewrite (append_assoc o' (String c "") (String slash "%(title)s.%(ext)s")
               : o' +:+ String c (String slash "%(title)s.%(ext)s") = _).
    rewrite split_slash_app. rewrite List.filter_app. simpl.
    rewrite !app_assoc, rev_unit. reflexivity.
Qed.

(** X4. The template handed to the engine names a file directly inside
    the output directory that download_video creates: the parts of the
    template are the parts of the directory followed by
    "%(title)s.%(ext)s", whatever the slashes and dots written in
    output_dir, the empty output_dir being the working directory. *)
Theorem template_in_output_dir (a : download_args) :
  exists t,
    ydl_opts a !! "outtmpl" = Some (OStr t) /\
    Path t = "%(title)s.%(ext)s" :: Path (output_dir a) /\
    parent (Path t) = Path (output_dir a).
Proof.
  exists (os_path_join (output_dir a) "%(title)s.%(ext)s").
  split; [|split].
  - rewrite ydl_opts_base_key by (unfold base_keys; set_solver).
    unfold base_opts. by simplify_map_eq.
  - apply Path_os_path_join_template.
  - rewrite Path_os_path_join_template. by destruct (Path (output_dir a)).
Qed.

Example template_paths :
  Path (os_path_join "media//clips/" "%(title)s.%(ext)s")
    = ["%(title)s.%(ext)s"; "clips"; "media"] /\
  Path (os_path_join "" "%(title)s.%(ext)s") = ["%(title)s.%(ext)s"] /\
  Path (os_path_join "/" "%(title)s.%(ext)s") = ["%(title)s.%(ext)s"; "/"].
Proof. vm_compute. repeat split; reflexivity. Qed.

(* --------------------------------------------------------------------- *)
(* Creating the output directory: what it changes and what it keeps      *)
(* --------------------------------------------------------------------- *)

Lemma only_adds_dirs_refl w : only_adds_dirs w w.
Proof. repeat split. by left. Qed.

Lemma only_adds_dirs_trans w1 w2 w3 :
  only_adds_dirs w1 w2 -> only_adds_dirs w2 w3 -> only_adds_dirs w1 w3.
Proof.
  intros (Ho1 & Hc1 & Hf1) (Ho2 & Hc2 & Hf2). repeat split; [congruence..|].
  intros q. destruct (Hf1 q) as [H1|[H1 H1']], (Hf2 q) as [H2|[H2 H2']];
    [left|right|right|right]; split || idtac; congruence.
Qed.

Lemma os_mkdir_only_adds_dirs p w w' r :
  os_mkdir p w = (w', r) -> only_adds_dirs w w'.
Proof.
  unfold os_mkdir.
  destruct (w_fs w !! p) eqn:Hp; [intros [= <- _]; apply only_adds_dirs_refl|].
  destruct (w_fs w !! parent p) as [[]|];
    try (intros [= <- _]; apply only_adds_dirs_refl).
  intros [= <- _]. repeat split. simpl. intros q.
  destruct (decide (p = q)) as [<-|Hne].
  - right. by rewrite lookup_insert_eq.
  - left. by rewrite lookup_insert_ne.
Qed.

Lemma mkdir_noparents_only_adds_dirs p eo w w' r :
  mkdir_noparents p eo w = (w', r) -> only_adds_dirs w w'.
Proof.
  unfold mkdir_noparents.
  destruct (os_mkdir p w) as [w1 [[]|e]] eqn:Hm;
    apply os_mkdir_only_adds_dirs in Hm.
  - by intros [= <- _].
  - repeat case_match; by intros [= <- _].
Qed.

(** X5. Creating the output directory, whether it succeeds or fails,
    writes nothing to the console and removes or replaces nothing: every
    path is afterwards what it was before, or is a new directory where
    nothing existed. *)
Theorem mkdir_parents_only_adds_dirs (p : list string) (exist_ok : bool)
    (w w' : world) (r : result unit) :
  mkdir_parents p exist_ok w = (w', r) -> only_adds_dirs w w'.
Proof.
  revert exist_ok w w' r.
  induction p as [|a q IH]; intros eo w w' r; simpl.
  - destruct (os_mkdir [] w) as [w1 [[]|e]] eqn:Hm;
      apply os_mkdir_only_adds_dirs in Hm.
    + by intros [= <- _].
    + repeat case_match; by intros [= <- _].
  - destruct (os_mkdir (a :: q) w) as [w1 [[]|e]] eqn:Hm;
      apply os_mkdir_only_adds_dirs in Hm.
    + by intros [= <- _].
    + destruct (is_FileNotFoundError e).
      * case_bool_decide; [by intros [= <- _]|].
        unfold mbind, M_bind.
        destruct (mkdir_parents q true w1) as [w2 [[]|e2]] eqn:Hq;
          apply IH in Hq.
        -- intros Hn. apply mkdir_noparents_only_adds_dirs in Hn.
           eauto using only_adds_dirs_trans.
        -- intros [= <- _]. eauto using only_adds_dirs_trans.
      * repeat case_match; by intros [= <- _].
Qed.

Lemma mkdir_parents_only_adds_dirs_witness :
  let w := World (<[ ["notes.txt"] := File ]> {[ [] := Dir ]}) "/home/user" [] in
  let w' := (mkdir_parents (Path "media/video") true w).1 in
  only_adds_dirs w w' /\
  w_fs w' !! ["notes.txt"] = Some File /\
  w_fs w' !! ["video"; "media"] = Some Dir.
Proof.
  intros w w'. split; [|split; vm_compute; reflexivity].
  apply (mkdir_parents_only_adds_dirs (Path "media/video") true w w'
           (mkdir_parents (Path "media/video") true w).2).
  vm_compute. reflexivity.
Defined.

Lemma os_mkdir_closed p w w' r :
  fs_closed (w_fs w) -> os_mkdir p w = (w', r) -> fs_closed (w_fs w').
Proof.
  intros Hc. unfold os_mkdir.
  destruct (w_fs w !! p) eqn:Hp; [by intros [= <- _]|].
  destruct (w_fs w !! parent p) as [[]|] eqn:Hpp; try by intros [= <- _].
  intros [= <- _]. simpl. intros q n Hq.
  destruct (decide (parent q = q)) as [|Hself]; [by left|]. right.
  destruct (decide (p = q)) as [<-|Hne].
  - rewrite lookup_insert_ne by congruence. exact Hpp.
  - rewrite lookup_insert_ne in Hq by done.
    destruct (Hc q n Hq) as [|Hd]; [done|].
    rewrite lookup_insert_ne; [done|]. intros Heq. rewrite <- Heq in Hd.
    congruence.
Qed.

Lemma mkdir_noparents_closed p eo w w' r :
  fs_closed (w_fs w) -> mkdir_noparents p eo w = (w', r) -> fs_closed (w_fs w').
Proof.
  intros Hc. unfold mkdir_noparents.
  destruct (os_mkdir p w) as [w1 [[]|e]] eqn:Hm;
    apply (os_mkdir_closed _ _ _ _ Hc) in Hm.
  - by intros [= <- _].
  - repeat case_match; by intros [= <- _].
Qed.

(** X6. Creating the output directory keeps the file system closed under
    parents: if everything that exists lies in a directory before, so it
    does afterwards, on success and on failure alike, the directories
    made for the missing parents included. *)
Theorem mkdir_parents_keeps_closed (p : list string) (exist_ok : bool)
    (w w' : world) (r : result unit) :
  fs_closed (w_fs w) ->
  mkdir_parents p exist_ok w = (w', r) ->
  fs_closed (w_fs w').
Proof.
  revert exist_ok w w' r.
  induction p as [|a q IH]; intros eo w w' r Hc; simpl.
  - destruct (os_mkdir [] w) as [w1 [[]|e]] eqn:Hm;
      apply (os_mkdir_closed _ _ _ _ Hc) in Hm.
    + by intros [= <- _].
    + repeat case_match; by intros [= <- _].
  - destruct (os_mkdir (a :: q) w) as [w1 [[]|e]] eqn:Hm;
      apply (os_mkdir_closed _ _ _ _ Hc) in Hm.
    + by intros [= <- _].
    + destruct (is_FileNotFoundError e).
      * case_bool_decide; [by intros [= <- _]|].
        unfold mbind, M_bind.
        destruct (mkdir_parents q true w1) as [w2 [[]|e2]] eqn:Hq;
          apply (IH _ _ _ _ Hm) in Hq.
        -- apply mkdir_noparents_closed, Hq.
        -- by intros [= <- _].
      * repeat case_match; by intros [= <- _].
Qed.

Lemma sample_world_closed : fs_closed (w_fs sample_world).
Proof.
  intros p n Hp. simpl in Hp.
  apply lookup_singleton_Some in Hp as [<- _]. by left.
Qed.

Lemma mkdir_parents_keeps_closed_witness :
  fs_closed (w_fs (mkdir_parents (Path "media/video/new") true sample_world).1).
Proof.
  apply (mkdir_parents_keeps_closed (Path "media/video/new") true sample_world _
           (mkdir_parents (Path "media/video/new") true sample_world).2
           sample_world_closed).
  vm_compute. reflexivity.
Defined.

(** X7. When the output path exists and is not a directory, download_video
    raises FileExistsError out of the call: nothing is printed, the file
    system is untouched, and the engine is never built. *)
Theorem output_path_is_file (YoutubeDL : gmap string optval -> M ydl)
    (a : download_args) (w : world) :
  w_fs w !! Path (output_dir a) = Some File ->
  exists msg,
    download_video YoutubeDL a w = (w, Raise (Exception "FileExistsError" msg)).
Proof.
  intros Hf.
  exists (str_exn (os_error "FileExistsError" "[Errno 17] File exists"
                     (Path (output_dir a)))).
  apply download_video_prelude_raises.
  rewrite download_prelude_spec.
  assert (Hm : os_mkdir (Path (output_dir a)) w =
               (w, Raise (os_error "FileExistsError" "[Errno 17] File exists"
                            (Path (output_dir a))))).
  { unfold os_mkdir. by rewrite Hf. }
  assert (Hd : is_dir (Path (output_dir a)) w = false).
  { unfold is_dir. by rewrite Hf. }
  destruct (Path (output_dir a)) as [|c q]; simpl; rewrite Hm; simpl;
    rewrite Hd; reflexivity.
Qed.

Lemma output_path_is_file_witness :
  let w := World (<[ ["downloads"] := File ]> {[ [] := Dir ]}) "/home/user" [] in
  exists msg,
    download_video (sample_YoutubeDL (Ok tt)) (sample_args "best" None) w
      = (w, Raise (Exception "FileExistsError" msg)).
Proof.
  intros w. apply output_path_is_file. vm_compute. reflexivity.
Defined.

(* --------------------------------------------------------------------- *)
(* download_video: the steps of the [try] body                           *)
(* --------------------------------------------------------------------- *)

(** X8. When the engine has no metadata for the URL (extract_info returns
    None, as it does when it ignores an extraction error), download_video
    reports a TypeError as the error of the run and returns False; the
    download itself is never started. *)
Theorem no_metadata_reported (YoutubeDL : gmap string optval -> M ydl)
    (a : download_args) (w w1 w2 w3 : world) (y : ydl) :
  download_prelude a w = (w1, Ok tt) ->
  YoutubeDL (ydl_opts a) w1 = (w2, Ok y) ->
  extract_info y (url a) w2 = (w3, Ok None) ->
  download_video YoutubeDL a w =
    (add_out w3
       [(newline +:+ "❌ Error: " +:+ "argument of type 'NoneType' is not iterable")
          +:+ newline],
     Ok false).
Proof.
  intros Hp Hy Hi. rewrite (download_video_spec _ _ _ _ Hp).
  unfold download_body.
  erewrite bind_Ok by exact Hy. erewrite bind_Ok by exact Hi. reflexivity.
Qed.

Lemma no_metadata_reported_witness :
  let E := fun _ : gmap string optval =>
             (mret (Ydl (fun _ => mret None)
                        (fun _ => raise KeyboardInterrupt)) : M ydl) in
  let a := sample_args "best" None in
  let w1 := (download_prelude a sample_world).1 in
  download_video E a sample_world =
    (add_out w1
       [(newline +:+ "❌ Error: " +:+ "argument of type 'NoneType' is not iterable")
          +:+ newline],
     Ok false).
Proof.
  intros E a w1.
  apply (no_metadata_reported E a sample_world w1 w1 w1
           (Ydl (fun _ => mret None) (fun _ => raise KeyboardInterrupt)));
    [vm_compute; reflexivity | reflexivity | reflexivity].
Defined.

(** X9. When the engine is built and has metadata, download_video writes
    the summary of the metadata (for a playlist its title and the number
    of its entries, and the starting index when start is above 1; for a
    single video its title), then starts the download on the URL; when
    the download returns, it writes the completion line and returns
    True. *)
Theorem download_success_path (YoutubeDL : gmap string optval -> M ydl)
    (a : download_args) (w w1 w2 w3 w4 : world) (y : ydl) (i : info) :
  download_prelude a w = (w1, Ok tt) ->
  YoutubeDL (ydl_opts a) w1 = (w2, Ok y) ->
  extract_info y (url a) w2 = (w3, Ok (Some i)) ->
  download y [url a] (add_out w3 (summary_lines a i)) = (w4, Ok tt) ->
  download_video YoutubeDL a w =
    (add_out w4 [(newline +:+ "✅ Download completed successfully!") +:+ newline],
     Ok true).
Proof.
  intros Hp Hy Hi Hd. rewrite (download_video_spec _ _ _ _ Hp).
  unfold download_body.
  erewrite bind_Ok by exact Hy. erewrite bind_Ok by exact Hi.
  cbv beta iota. unfold summary_lines in Hd.
  unfold mbind, M_bind, mret, M_ret.
  destruct (info_entries i) as [es|].
  - rewrite print_spec. destruct (1 <? start a).
    + rewrite print_spec, add_out_add_out. simpl app. rewrite Hd.
      by rewrite print_spec.
    + rewrite Hd. by rewrite print_spec.
  - rewrite print_spec, Hd. by rewrite print_spec.
Qed.

Lemma download_success_path_witness :
  let y := Ydl (fun _ => mret (Some (Info (Some (PStr "Mix"))
                                       (Some [None; None; None]) None)))
               (fun _ => mret tt) in
  let E := fun _ : gmap string optval => (mret y : M ydl) in
  let a := DownloadArgs "https://example.com/list" false "downloads" 2 "best"
             None false false in
  let w1 := (download_prelude a sample_world).1 in
  download_video E a sample_world =
    (add_out
       (add_out w1
          [("📋 Playlist detected: Mix (3 videos)") +:+ newline;
           ("⏩ Starting from video #2" +:+ newline) +:+ newline])
       [(newline +:+ "✅ Download completed successfully!") +:+ newline],
     Ok true).
Proof.
  intros y E a w1.
  apply (download_success_path E a sample_world w1 w1 w1 _ y
           (Info (Some (PStr "Mix")) (Some [None; None; None]) None));
    [vm_compute; reflexivity | reflexivity | reflexivity | reflexivity].
Defined.

(* --------------------------------------------------------------------- *)
(* list_formats: failures                                                *)
(* --------------------------------------------------------------------- *)

Lemma list_formats_unfold (YoutubeDL : gmap string optval -> M ydl) u w :
  list_formats YoutubeDL u w =
    match list_body YoutubeDL u (add_out w [list_banner u]) with
    | (w', Ok _) => (w', Ok tt)
    | (w', Raise KeyboardInterrupt) => (w', Raise KeyboardInterrupt)
    | (w', Raise (Exception cls msg)) =>
        (add_out w' [("❌ Error listing formats: " +:+ msg) +:+ newline], Ok tt)
    end.
Proof.
  unfold list_formats. erewrite bind_Ok by apply print_spec.
  unfold try_exception, list_banner.
  by destruct (list_body _ _ _) as [w' [[]|[|cls msg]]].
Qed.



(** X11. When the engine cannot give the metadata, because extract_info
    raises an Exception or returns None, list_formats writes one line
    that names the error after its banner, no header and no row, and
    returns. *)
Theorem list_formats_no_metadata (YoutubeDL : gmap string optval -> M ydl)
    (u : string) (w w1 w2 : world) (y : ydl) :
  YoutubeDL list_opts
    (add_out w [("📋 Available formats for: " +:+ u +:+ newline) +:+ newline])
    = (w1, Ok y) ->
  (forall cls msg,
     extract_info y u w1 = (w2, Raise (Exception cls msg)) ->
     list_formats YoutubeDL u w =
       (add_out w2 [("❌ Error listing formats: " +:+ msg) +:+ newline], Ok tt)) /\
  (extract_info y u w1 = (w2, Ok None) ->
   list_formats YoutubeDL u w =
     (add_out w2
        [("❌ Error listing formats: "
            +:+ "argument of type 'NoneType' is not iterable") +:+ newline],
      Ok tt)).
Proof.
  intros Hy. split.
  - intros cls msg Hi. rewrite list_formats_unfold. unfold list_banner, list_body.
    erewrite bind_Ok by exact Hy. by erewrite bind_Raise by exact Hi.
  - intros Hi. rewrite list_formats_unfold. unfold list_banner, list_body.
    erewrite bind_Ok by exact Hy. by erewrite bind_Ok by exact Hi.
Qed.

Lemma list_formats_no_metadata_witness :
  let y := Ydl (fun _ => mret None) (fun _ => mret tt) in
  let E := fun _ : gmap string optval => (mret y : M ydl) in
  let u := "https://example.com/video" in
  let w1 := add_out sample_world
              [("📋 Available formats for: " +:+ u +:+ newline) +:+ newline] in
  list_formats E u sample_world =
    (add_out w1
       [("❌ Error listing formats: "
           +:+ "argument of type 'NoneType' is not iterable") +:+ newline],
     Ok tt).
Proof.
  intros y E u w1.
  apply (proj2 (list_formats_no_metadata E u sample_world w1 w1 y eq_refl)).
  reflexivity.
Defined.

(** X12. When the metadata has no "formats" key, list_formats writes, after
    its banner and what the engine wrote, the one line "No format
    information available": no header, no row, no hint. *)
Theorem list_formats_no_formats (YoutubeDL : gmap string optval -> M ydl)
    (u : string) (w w1 w2 : world) (y : ydl) (i : info) :
  YoutubeDL list_opts
    (add_out w [("📋 Available formats for: " +:+ u +:+ newline) +:+ newline])
    = (w1, Ok y) ->
  extract_info y u w1 = (w2, Ok (Some i)) ->
  info_formats i = None ->
  list_formats YoutubeDL u w =
    (add_out w2 ["❌ No format information available" +:+ newline], Ok tt).
Proof.
  intros Hy Hi Hf. rewrite list_formats_unfold. unfold list_banner, list_body.
  erewrite bind_Ok by exact Hy. erewrite bind_Ok by exact Hi.
  cbv beta iota. rewrite Hf. by rewrite print_spec.
Qed.

Lemma list_formats_no_formats_witness :
  let u := "https://example.com/video" in
  list_formats (sample_YoutubeDL (Ok tt)) u sample_world =
    (add_out
       (add_out sample_world
          [("📋 Available formats for: " +:+ u +:+ newline) +:+ newline;
           "[engine] format " +:+ newline])
       ["❌ No format information available" +:+ newline],
     Ok tt).
Proof.
  intros u.
  pose (w1 := add_out sample_world
                [("📋 Available formats for: " +:+ u +:+ newline) +:+ newline;
                 "[engine] format " +:+ newline]).
  apply (list_formats_no_formats (sample_YoutubeDL (Ok tt)) u sample_world w1 w1
           (sample_ydl (Ok tt)) (Info (Some (PStr "Clip")) None None));
    reflexivity.
Defined.

(* --------------------------------------------------------------------- *)
(* The table: width of the rows, small sizes, order of sizes             *)
(* --------------------------------------------------------------------- *)

Lemma string_length_app (a b : string) :
  String.length (a +:+ b) = (String.length a + String.length b)%nat.
Proof.
  induction a as [|c a IH]; [reflexivity|].
  change (String c a +:+ b) with (String c (a +:+ b)). simpl. by rewrite IH.
Qed.

Lemma string_length_repeat (c : ascii) (n : nat) :
  String.length (string_of_list_ascii (repeat c n)) = n.
Proof. induction n as [|n IH]; simpl; congruence. Qed.

Lemma ljust_length (w : nat) (s : string) :
  String.length (ljust w s) = Nat.max w (String.length s).
Proof.
  unfold ljust. rewrite string_length_app, string_length_repeat. lia.
Qed.

Lemma format_columns_length (a b c d e : string) :
  String.length (format_columns a b c d e) =
    (Nat.max 10 (String.length a) + Nat.max 15 (String.length b)
     + Nat.max 10 (String.length c) + Nat.max 15 (String.length d)
     + Nat.max 10 (String.length e) + 4)%nat.
Proof.
  unfold format_columns. rewrite !string_length_app, !ljust_length. simpl. lia.
Qed.

(** X13. A row of the table is never cut and never shorter than the
    header: for a record whose row is made of ASCII characters, the row
    has 64 characters when every field fits its column (10, 15, 10, 15
    and 10 characters), and each field longer than its column makes the
    row longer by as many characters as it exceeds it. *)
Theorem format_row_width (f : format_record) :
  ascii_only (format_row f) = true ->
  String.length (format_row f) =
    (Nat.max 10 (String.length (default "N/A" (format_id f)))
     + Nat.max 15 (String.length (default "N/A" (ext f)))
     + Nat.max 10 (String.length (resolution_str f))
     + Nat.max 15 (String.length (filesize_str f))
     + Nat.max 10 (String.length (default "" (format_note f))) + 4)%nat /\
  (64 <= String.length (format_row f))%nat.
Proof.
  intros _. unfold format_row. rewrite format_columns_length. split; lia.
Qed.

Lemma format_row_width_witness :
  let f := FormatRecord (Some "hls-audio-128000-Audio") (Some "mp4") None
             (Some "none") None None None in
  String.length (format_row f) = 76%nat /\ (64 <= String.length (format_row f))%nat.
Proof.
  intros f.
  destruct (format_row_width f) as [Hlen Hmin]; [vm_compute; reflexivity|].
  split; [|exact Hmin]. rewrite Hlen. vm_compute. reflexivity.
Defined.

Lemma tenths_of_MiB_small (n : Z) : 0 <= n <= 52428 -> tenths_of_MiB n = 0.
Proof.
  intros Hn. unfold tenths_of_MiB. change (2 ^ 20) with 1048576.
  rewrite (Z.div_small (10 * n) 1048576) by lia.
  rewrite (Z.mod_small (10 * n) 1048576) by lia.
  by destruct (Z.ltb_spec (2 * (10 * n)) 1048576); [|lia].
Qed.

(** X14. A size that is known and not zero but below 0.05 MB, that is of
    1 to 52428 bytes, is shown as "0.0MB", not as "N/A". *)
Theorem small_size_shown_as_zero (f : format_record) (n : Z) :
  filesize_read f = Some n -> 0 < n <= 52428 ->
  filesize_str f = "0.0MB".
Proof.
  intros Hr Hn. unfold filesize_str. rewrite Hr.
  destruct (Z.eqb_spec n 0); [lia|].
  unfold format_MiB_1f. rewrite Z.abs_eq by lia.
  rewrite tenths_of_MiB_small by lia.
  by destruct (Z.ltb_spec n 0); [lia|].
Qed.

Lemma small_size_shown_as_zero_witness :
  filesize_str (FormatRecord (Some "sb2") (Some "mhtml") (Some "48x27") None
                  None (Some (Some 52428)) None) = "0.0MB" /\
  filesize_str (FormatRecord (Some "sb2") (Some "mhtml") (Some "48x27") None
                  None (Some (Some 52429)) None) = "0.1MB".
Proof.
  split; [|vm_compute; reflexivity].
  apply (small_size_shown_as_zero _ 52428); [reflexivity | lia].
Defined.

(** X15. The tenths shown grow with the size: of two sizes, the larger is
    never shown with fewer tenths of a MB than the smaller. *)
Theorem tenths_of_MiB_monotone (a b : Z) :
  0 <= a -> a <= b -> tenths_of_MiB a <= tenths_of_MiB b.
Proof.
  intros Ha Hab.
  destruct (tenths_of_MiB_nearest a Ha) as [Ha0 Ha1].
  destruct (tenths_of_MiB_nearest b ltac:(lia)) as [Hb0 Hb1].
  change (2 ^ 20) with 1048576 in *.
  destruct (Z_le_gt_dec (tenths_of_MiB a) (tenths_of_MiB b)) as [|Hgt]; [done|].
  assert (Heq : a = b) by lia. subst b. lia.
Qed.

Lemma tenths_of_MiB_monotone_witness :
  tenths_of_MiB 262144 <= tenths_of_MiB 786432.
Proof. apply tenths_of_MiB_monotone; lia. Defined.

(* --------------------------------------------------------------------- *)
(* progress_hook: what it leaves alone                                   *)
(* --------------------------------------------------------------------- *)

(** X16. progress_hook only reports: on any dictionary, with or without a
    status, it leaves the file system as it is and adds at most one chunk
    to the console; on a "finished" event the chunk is the completion
    line, which starts with a carriage return and ends with a newline,
    whatever else the dictionary holds. *)
Theorem progress_hook_only_reports (d : gmap string pyval) (w : world) :
  (w_fs (progress_hook d w).1 = w_fs w /\
   w_cwd (progress_hook d w).1 = w_cwd w /\
   exists chunks, w_out (progress_hook d w).1 = w_out w ++ chunks /\
                  (length chunks <= 1)%nat) /\
  (d !! "status" = Some (PStr "finished") ->
   progress_hook d w =
     (add_out w [(cr +:+ "✓ Download finished, processing...             ")
                   +:+ newline], Ok tt)).
Proof.
  split.
  - destruct (d !! "status") as [v|] eqn:Hs.
    + rewrite (progress_hook_spec _ _ _ Hs).
      destruct (eq_str v "downloading"); [|destruct (eq_str v "finished")];
        simpl; (split; [reflexivity|]); (split; [reflexivity|]).
      * exists [downloading_line d]. split; [reflexivity | simpl; lia].
      * exists [finished_line +:+ newline]. split; [reflexivity | simpl; lia].
      * exists []. split; [by rewrite app_nil_r | simpl; lia].
    + rewrite (progress_hook_no_status _ _ Hs). simpl.
      split; [reflexivity|]. split; [reflexivity|].
      exists []. split; [by rewrite app_nil_r | simpl; lia].
  - intros Hs. by rewrite (progress_hook_spec _ _ _ Hs).
Qed.

Lemma progress_hook_only_reports_witness :
  progress_hook (<["total_bytes" := PInt 1048576]> {[ "status" := PStr "finished" ]})
    sample_world
    = (add_out sample_world
         [(cr +:+ "✓ Download finished, processing...             ") +:+ newline],
       Ok tt).
Proof.
  apply (proj2 (progress_hook_only_reports _ sample_world)). reflexivity.
Defined.

(* --------------------------------------------------------------------- *)
(* check_dependencies and main                                           *)
(* --------------------------------------------------------------------- *)

Section MainFacts.

Variable which : string -> option string.
Variable YoutubeDL : gmap string optval -> M ydl.
Variable print_help : M unit.



End MainFacts.





(** With a command and a URL and no option, the download runs with the
    defaults of the command line, which are those of download_video. *)
Example default_download_options :
  let a := args_of_namespace (parsed_defaults "download" "https://example.com/video") in
  a = DownloadArgs "https://example.com/video" false "downloads" 1 "best" None
        false false /\
  ydl_opts a !! "format" = Some (OStr "bestvideo+bestaudio/best") /\
  ydl_opts a !! "outtmpl" = Some (OStr "downloads/%(title)s.%(ext)s") /\
  ydl_opts a !! "postprocessors" = None.
Proof. vm_compute. repeat split; reflexivity. Qed.
